(** * LaudaT2200: the communication loop of the Lauda T2200 chiller server

    A shallow embedding of [src/LaudaT2200.py].  The Tango device object
    ([self]) becomes a record, the serial port becomes a deterministic
    responder that sees every command written so far, and the Python
    statements that can raise become computations in a small
    state-and-exception monad: a raised exception keeps the mutations done
    before it, exactly as in Python. *)

From Stdlib Require Import String Ascii List ZArith Bool Lia.
Import ListNotations.
Local Open Scope string_scope.
Local Open Scope Z_scope.

Set Implicit Arguments.

(** ** Python exceptions and builtins *)

(** The exception classes that the modelled statements can raise.
    [UnicodeDecodeError] is a subclass of [ValueError]; all four are
    subclasses of [Exception]. *)
Inductive exn : Type :=
| ValueError
| UnicodeDecodeError
| OverflowError
| SerialException.

(** [except ValueError:] also catches the subclasses of [ValueError]. *)
Definition is_ValueError (e : exn) : bool :=
  match e with
  | ValueError | UnicodeDecodeError => true
  | OverflowError | SerialException => false
  end.

(** The Python builtins the program calls.  They are not part of the
    repository, so the development is parametric in them:
    - [float_of_str s] is [float(s)], [None] standing for [ValueError];
    - [int_of_float x] is [int(x)] on a float, which raises
      [OverflowError] on an infinity and [ValueError] on a NaN;
    - [int_of_str s] is [int(s)], [None] standing for [ValueError];
    - [str_of_float x] is the text an f-string substitutes for [{x}];
    - [str_of_exn e] is the text an f-string substitutes for an exception;
    - [float_0_0] and [float_21_0] are the literals [0.0] and [21.0]. *)
Class Builtins : Type := {
  pyfloat : Type;
  float_of_str : string -> option pyfloat;
  int_of_float : pyfloat -> exn + Z;
  int_of_str : string -> option Z;
  str_of_float : pyfloat -> string;
  str_of_exn : exn -> string;
  float_0_0 : pyfloat;
  float_21_0 : pyfloat
}.

(** ** Data model *)

(** The values of [tango.DevState] the program uses. *)
Inductive DevState : Type := INIT | ON | RUNNING | FAULT.

(** What the program does that is visible from outside, in order. *)
Inductive Event : Type :=
| Write (cmd : string)                    (* serial_port.write(cmd.encode()) *)
| InfoStream (msg : string)               (* self.info_stream(msg) *)
| ErrorStream (msg : string)              (* self.error_stream(msg) *)
| Sleep (secs : nat)                      (* time.sleep(secs) *)
| PushChangeEvent (attr : string) (v : bool)
| ThreadStart.                            (* comm_thread.start() *)

(** One answer of the serial port to a write-then-readline exchange:
    [Line s] is the value of [readline().decode().strip()] (the empty
    string when the read times out), [Raise e] an exception raised by
    [write], [readline] or [decode]. *)
Inductive reply : Type :=
| Line (s : string)
| Raise (e : exn).

(** The instrument and its port.  [dev_open] is the outcome of
    constructing and opening [serial.Serial] ([None]: success);
    [dev_reply] answers an exchange from the list of all commands written
    so far, the current one last. *)
Record Device : Type := {
  dev_open : option exn;
  dev_reply : list string -> reply
}.

Section Program.

Context {B : Builtins}.

(** The attributes of [self] that [init_device] creates.  [comm_thread]
    tells whether the communication thread has been started. *)
Record Self : Type := mkSelf {
  state : DevState;
  _bath_temp : pyfloat;
  _temp_setp : pyfloat;
  _temp_setp_changed : bool;
  _chiller_status : string;
  _is_on : bool;
  _is_on_toggle : bool;
  _pressure : pyfloat;
  comm_thread : bool
}.

Definition set_state (v : DevState) (s : Self) : Self :=
  mkSelf v (_bath_temp s) (_temp_setp s) (_temp_setp_changed s)
         (_chiller_status s) (_is_on s) (_is_on_toggle s) (_pressure s)
         (comm_thread s).

Definition set_bath_temp (v : pyfloat) (s : Self) : Self :=
  mkSelf (state s) v (_temp_setp s) (_temp_setp_changed s)
         (_chiller_status s) (_is_on s) (_is_on_toggle s) (_pressure s)
         (comm_thread s).

Definition set_temp_setp (v : pyfloat) (s : Self) : Self :=
  mkSelf (state s) (_bath_temp s) v (_temp_setp_changed s)
         (_chiller_status s) (_is_on s) (_is_on_toggle s) (_pressure s)
         (comm_thread s).

Definition set_temp_setp_changed (v : bool) (s : Self) : Self :=
  mkSelf (state s) (_bath_temp s) (_temp_setp s) v
         (_chiller_status s) (_is_on s) (_is_on_toggle s) (_pressure s)
         (comm_thread s).

Definition set_chiller_status (v : string) (s : Self) : Self :=
  mkSelf (state s) (_bath_temp s) (_temp_setp s) (_temp_setp_changed s)
         v (_is_on s) (_is_on_toggle s) (_pressure s) (comm_thread s).

Definition set_is_on (v : bool) (s : Self) : Self :=
  mkSelf (state s) (_bath_temp s) (_temp_setp s) (_temp_setp_changed s)
         (_chiller_status s) v (_is_on_toggle s) (_pressure s)
         (comm_thread s).

Definition set_is_on_toggle (v : bool) (s : Self) : Self :=
  mkSelf (state s) (_bath_temp s) (_temp_setp s) (_temp_setp_changed s)
         (_chiller_status s) (_is_on s) v (_pressure s) (comm_thread s).

Definition set_pressure (v : pyfloat) (s : Self) : Self :=
  mkSelf (state s) (_bath_temp s) (_temp_setp s) (_temp_setp_changed s)
         (_chiller_status s) (_is_on s) (_is_on_toggle s) v (comm_thread s).

Definition set_comm_thread (v : bool) (s : Self) : Self :=
  mkSelf (state s) (_bath_temp s) (_temp_setp s) (_temp_setp_changed s)
         (_chiller_status s) (_is_on s) (_is_on_toggle s) (_pressure s) v.

(** The object together with the history of what the program did. *)
Record World : Type := mkWorld {
  self : Self;
  trace : list Event
}.

(** The commands written to the port, oldest first. *)
Fixpoint sent (t : list Event) : list string :=
  match t with
  | [] => []
  | Write c :: t' => c :: sent t'
  | _ :: t' => sent t'
  end.

(** The change events pushed to the clients, oldest first. *)
Fixpoint pushed (t : list Event) : list (string * bool) :=
  match t with
  | [] => []
  | PushChangeEvent a v :: t' => (a, v) :: pushed t'
  | _ :: t' => pushed t'
  end.

(** ** The monad of statements *)

Definition M (A : Type) : Type := World -> (exn + A) * World.

Definition ret {A} (a : A) : M A := fun w => (inr a, w).

Definition bind {A C} (m : M A) (k : A -> M C) : M C :=
  fun w =>
    match m w with
    | (inr a, w') => k a w'
    | (inl e, w') => (inl e, w')
    end.

Definition raise {A} (e : exn) : M A := fun w => (inl e, w).

(** [try: body / except ValueError: handler]. *)
Definition try_except_ValueError (body handler : M unit) : M unit :=
  fun w =>
    match body w with
    | (inr a, w') => (inr a, w')
    | (inl e, w') => if is_ValueError e then handler w' else (inl e, w')
    end.

(** [try: body / except Exception as e: handler e]. *)
Definition try_except_Exception (body : M unit) (handler : exn -> M unit)
  : M unit :=
  fun w =>
    match body w with
    | (inr a, w') => (inr a, w')
    | (inl e, w') => handler e w'
    end.

Definition modify (f : Self -> Self) : M unit :=
  fun w => (inr tt, mkWorld (f (self w)) (trace w)).

Definition get {A} (f : Self -> A) : M A :=
  fun w => (inr (f (self w)), w).

Definition emit (e : Event) : M unit :=
  fun w => (inr tt, mkWorld (self w) (trace w ++ [e])).

End Program.

Declare Scope py_scope.
Delimit Scope py_scope with py.
Notation "x <- m ;; k" := (bind m (fun x => k))
  (at level 61, m at next level, right associativity) : py_scope.
Notation "m ;; k" := (bind m (fun _ => k))
  (at level 61, right associativity) : py_scope.

Local Open Scope py_scope.

(** ** The serial protocol *)

(** The last command of a history of written commands. *)
Definition current (h : list string) : string := last h EmptyString.

(** The line terminator [\r\n] every command ends with. *)
Definition CRLF : string :=
  String (ascii_of_nat 13) (String (ascii_of_nat 10) EmptyString).

Definition STATUS : string := "STATUS" ++ CRLF.
Definition STAT : string := "STAT" ++ CRLF.
Definition IN_PV_00 : string := "IN_PV_00" ++ CRLF.
Definition IN_PV_02 : string := "IN_PV_02" ++ CRLF.
Definition IN_SP_00 : string := "IN_SP_00" ++ CRLF.
Definition IN_MODE_02 : string := "IN_MODE_02" ++ CRLF.
Definition START : string := "START" ++ CRLF.
Definition STOP : string := "STOP" ++ CRLF.

Arguments CRLF : simpl never.
Arguments STATUS : simpl never.
Arguments STAT : simpl never.
Arguments IN_PV_00 : simpl never.
Arguments IN_PV_02 : simpl never.
Arguments IN_SP_00 : simpl never.
Arguments IN_MODE_02 : simpl never.
Arguments START : simpl never.
Arguments STOP : simpl never.

Section Server.

Context {B : Builtins}.
Variable dev : Device.

(** [OUT_SP_00_<value>], the value formatted as the f-string does. *)
Definition OUT_SP_00 (v : pyfloat) : string :=
  "OUT_SP_00_" ++ str_of_float v ++ CRLF.

(** [serial_port.write(command.encode())] followed by
    [response = serial_port.readline().decode().strip()]. *)
Definition exchange (command : string) : M string :=
  fun w =>
    let t := (trace w ++ [Write command])%list in
    match dev_reply dev (sent t) with
    | Line response => (inr response, mkWorld (self w) t)
    | Raise e => (inl e, mkWorld (self w) t)
    end.

(** [float(s)], [int(x)] and [int(s)] as statements that may raise. *)
Definition py_float (s : string) : M pyfloat :=
  match float_of_str s with
  | Some x => ret x
  | None => raise ValueError
  end.

Definition py_int (x : pyfloat) : M Z :=
  match int_of_float x with
  | inr z => ret z
  | inl e => raise e
  end.

Definition py_int_str (s : string) : M Z :=
  match int_of_str s with
  | Some z => ret z
  | None => raise ValueError
  end.

(** *** Data reading functions *)

Definition _read_bath_temp : M unit :=
  response <- exchange IN_PV_00 ;;
  try_except_ValueError
    (x <- py_float response ;;
     modify (set_bath_temp x))
    (emit (ErrorStream ("Invalid temperature response: " ++ response))).

Definition _read_chiller_status : M unit :=
  response <- exchange STATUS ;;
  r <- (x <- py_float response ;; py_int x) ;;
  (if r =? 0 then ret tt
   else
     r' <- (x <- py_float response ;; py_int x) ;;
     if r' =? -1 then
       modify (set_state FAULT) ;;
       emit (ErrorStream "Chiller is in alarm state")
     else ret tt) ;;
  response <- exchange STAT ;;
  modify (set_chiller_status response).

Definition _read_pressure : M unit :=
  response <- exchange IN_PV_02 ;;
  try_except_ValueError
    (x <- py_float response ;;
     modify (set_pressure x))
    (emit (ErrorStream ("Invalid pressure response: " ++ response))).

Definition _read_is_on : M unit :=
  response <- exchange IN_MODE_02 ;;
  try_except_ValueError
    (x <- py_float response ;;
     r <- py_int x ;;
     if r =? 0 then
       modify (set_is_on true) ;;
       modify (set_state RUNNING)
     else if r =? 1 then
       modify (set_is_on false)
     else ret tt)
    (emit (ErrorStream ("Invalid is_on response: " ++ response))).

Definition _write_is_on : M unit :=
  toggle <- get _is_on_toggle ;;
  if toggle then
    on <- get _is_on ;;
    response <- exchange (if on then START else STOP) ;;
    emit (InfoStream ("On/Off state toggled, response: " ++ response)) ;;
    emit (Sleep 1) ;;
    on <- get _is_on ;;
    (if on then modify (set_state RUNNING) else modify (set_state ON)) ;;
    on <- get _is_on ;;
    emit (PushChangeEvent "is_on" on) ;;
    modify (set_is_on_toggle false)
  else ret tt.

Definition _read_setp : M unit :=
  response <- exchange IN_SP_00 ;;
  try_except_ValueError
    (x <- py_float response ;;
     modify (set_temp_setp x))
    (emit (ErrorStream ("Invalid setpoint read response: " ++ response))).

Definition _write_setp : M unit :=
  changed <- get _temp_setp_changed ;;
  if changed then
    v <- get _temp_setp ;;
    response <- exchange (OUT_SP_00 v) ;;
    v <- get _temp_setp ;;
    emit (InfoStream ("Setpoint changed to " ++ str_of_float v
                      ++ ", response: " ++ response)) ;;
    modify (set_temp_setp_changed false)
  else ret tt.

(** *** The communication thread *)

(** One iteration of the [while True] loop of [_communication_loop],
    without the final sleep: the three [with self.serial_lock] blocks in
    turn.  Taking and releasing the lock has no effect on a single thread
    of control, also when the block is left by an exception. *)
Definition flush_block : M unit :=
  _write_is_on ;;
  _write_setp.

Definition read_block : M unit :=
  _read_bath_temp ;;
  _read_pressure ;;
  _read_setp ;;
  _read_chiller_status.

Definition cycle : M unit :=
  flush_block ;;
  read_block ;;
  _read_is_on.

(** The first [n] iterations of [_communication_loop].  The Python loop
    has no exit: the thread ends only by an exception that leaves the
    loop, which is the result [inl e]; [inr tt] says that the thread is
    still looping after [n] iterations. *)
Fixpoint _communication_loop (n : nat) : M unit :=
  match n with
  | O => ret tt
  | S k =>
      cycle ;;
      emit (Sleep 1) ;;
      _communication_loop k
  end.

(** *** Start-up *)

(** The attribute values [init_device] assigns before it opens the port. *)
Definition init_self : Self :=
  mkSelf INIT float_0_0 float_21_0 false "" false false float_0_0 false.

(** [serial.Serial(port=..., baudrate=..., timeout=...)] and the
    [isOpen]/[open] that follows. *)
Definition open_port : M unit :=
  match dev_open dev with
  | None => ret tt
  | Some e => raise e
  end.

(** [init_device] at server start; the console [print]s are left out. *)
Definition init_device : M unit :=
  modify (fun _ => init_self) ;;
  try_except_Exception
    (open_port ;;
     response <- exchange STATUS ;;
     emit (InfoStream ("init_device: status is: " ++ response)) ;;
     r <- py_int_str response ;;
     (if r =? 0 then modify (set_state ON)
      else
        r' <- py_int_str response ;;
        if r' =? -1 then
          modify (set_state FAULT) ;;
          emit (ErrorStream "Chiller is in alarm state")
        else ret tt) ;;
     modify (set_comm_thread true) ;;
     emit ThreadStart)
    (fun e =>
       emit (ErrorStream ("init_device: " ++ str_of_exn e)) ;;
       modify (set_state FAULT)).

(** The world in which the server process starts: nothing has happened
    yet, and [init_device] overwrites every attribute. *)
Definition boot : World := mkWorld init_self [].

(** The server after start-up and [n] iterations of the communication
    thread, which runs only if [init_device] started it. *)
Definition server (n : nat) : (exn + unit) * World :=
  let w := snd (init_device boot) in
  if comm_thread (self w) then _communication_loop n w else (inr tt, w).

(** *** Attribute read and write methods *)

Definition read_bath_temp (s : Self) : pyfloat := _bath_temp s.
Definition read_temp_setp (s : Self) : pyfloat := _temp_setp s.
Definition read_chiller_status (s : Self) : string := _chiller_status s.
Definition read_is_on (s : Self) : bool := _is_on s.
Definition read_pressure (s : Self) : pyfloat := _pressure s.

Definition write_temp_setp (value : pyfloat) (s : Self) : Self :=
  set_temp_setp_changed true (set_temp_setp value s).

Definition write_is_on (value : bool) (s : Self) : Self :=
  set_is_on value (set_is_on_toggle true s).

(** The same methods as steps of a run, called between two iterations. *)
Definition call (f : Self -> Self) (w : World) : World :=
  mkWorld (f (self w)) (trace w).

End Server.

Arguments OUT_SP_00 : simpl never.

(** ** Vocabulary of the properties *)

Section Vocabulary.

Context {B : Builtins}.
Variable dev : Device.

(** The second half of [_read_chiller_status]: the [STAT] exchange. *)
Definition stat_tail : M unit :=
  response <- exchange dev STAT ;;
  modify (set_chiller_status response).

(** The world in which the [STAT] exchange starts when the status code
    is [r]. *)
Definition after_status_code (r : Z) (w : World) : World :=
  if r =? 0 then mkWorld (self w) (trace w ++ [Write STATUS])
  else if r =? -1 then
    mkWorld (set_state FAULT (self w))
            (trace w ++ [Write STATUS; ErrorStream "Chiller is in alarm state"])
  else mkWorld (self w) (trace w ++ [Write STATUS]).

(** The part of a cycle that comes before the STATUS exchange. *)
Definition before_status : M unit :=
  flush_block dev ;;
  _read_bath_temp dev ;;
  _read_pressure dev ;;
  _read_setp dev.

(** [m] leaves [f] as it found it, however it ends. *)
Definition preserves {A X} (f : World -> X) (m : M A) : Prop :=
  forall w, f (snd (m w)) = f w.

(** [m] returns normally from every world. *)
Definition returns (m : M unit) : Prop := forall w, fst (m w) = inr tt.

(** Started in [w], [m] adds events whose writes are a prefix of [cmds],
    and all of [cmds] when it returns normally. *)
Definition emits (m : M unit) (w : World) (cmds : list string) : Prop :=
  exists evs,
    trace (snd (m w)) = (trace w ++ evs)%list /\
    (exists rest, cmds = (sent evs ++ rest)%list) /\
    (fst (m w) = inr tt -> sent evs = cmds).

(** The flushes a cycle owes when it starts with the attributes [s]. *)
Definition power_cmd (s : Self) : list string :=
  if _is_on_toggle s then [if _is_on s then START else STOP] else [].

Definition setp_cmd (s : Self) : list string :=
  if _temp_setp_changed s then [OUT_SP_00 (_temp_setp s)] else [].

Definition flush_cmds (s : Self) : list string :=
  (power_cmd s ++ setp_cmd s)%list.

(** The read exchanges of a cycle, in order. *)
Definition read_cmds : list string :=
  [IN_PV_00; IN_PV_02; IN_SP_00; STATUS; STAT; IN_MODE_02].

(** The two pending flags. *)
Definition pending (w : World) : bool * bool :=
  (_is_on_toggle (self w), _temp_setp_changed (self w)).




(** What the collaborator reads from [w] in the reference run. *)
Definition published (b p s : pyfloat) (w : World) : Prop :=
  read_bath_temp (self w) = b /\
  read_pressure (self w) = p /\
  read_temp_setp (self w) = s /\
  read_chiller_status (self w) = "OK" /\
  read_is_on (self w) = true /\
  state (self w) = RUNNING.

(** An instrument that answers every exchange with a line, answers STATUS
    with a number that converts to an integer, and never answers
    IN_MODE_02 with a number whose conversion raises anything but a
    [ValueError]. *)
Definition polite : Prop :=
  forall h, exists s,
    dev_reply dev h = Line s /\
    (current h = STATUS ->
     exists x r, float_of_str s = Some x /\ int_of_float x = inr r) /\
    (current h = IN_MODE_02 ->
     forall x e, float_of_str s = Some x -> int_of_float x = inl e ->
                 is_ValueError e = true).



(** The state a poll can leave behind: the one it found, FAULT or
    RUNNING. *)
Definition polled (s0 s1 : DevState) : Prop :=
  s1 = s0 \/ s1 = FAULT \/ s1 = RUNNING.

(** [m] moves the state as a poll may. *)
Definition polls (m : M unit) : Prop :=
  forall w, polled (state (self w)) (state (self (snd (m w)))).

(** The run from [w] to [w'] ended with [e] because of its last
    exchange: the last event of [w'] is the write of a command [c], made
    after [w], and what the instrument answered to that write is the
    cause: the port raised [e]; or [c] is STATUS and the answer did not
    convert to an integer; or [c] is IN_MODE_02 and the conversion of the
    answer raised [e], which is not a [ValueError]. *)
Definition ended_by (w w' : World) (e : exn) : Prop :=
  exists t c,
    trace w' = (t ++ [Write c])%list /\
    (exists evs, t = (trace w ++ evs)%list) /\
    (dev_reply dev (sent (trace w')) = Raise e \/
     (c = STATUS /\
      exists R, dev_reply dev (sent (trace w')) = Line R /\
        ((float_of_str R = None /\ e = ValueError) \/
         (exists x, float_of_str R = Some x /\ int_of_float x = inl e))) \/
     (c = IN_MODE_02 /\
      exists R x, dev_reply dev (sent (trace w')) = Line R /\
        float_of_str R = Some x /\ int_of_float x = inl e /\
        is_ValueError e = false)).

(** [m] only appends to the trace, and raises only for such a cause. *)
Definition ends_soundly (m : M unit) : Prop :=
  forall w,
    (exists evs, trace (snd (m w)) = (trace w ++ evs)%list) /\
    (forall e, fst (m w) = inl e -> ended_by w (snd (m w)) e).

(** The read commands of [n] cycles. *)
Definition rounds (n : nat) : list string := concat (repeat read_cmds n).

End Vocabulary.

(** ** A simulated interpreter and simulated instruments

    An executable instance of the builtins on fixed-point decimals, used
    to run the model on concrete lines: a float is its value in
    thousandths, and the accepted literals are an optional sign, at least
    one digit and an optional point followed by at most three digits. *)
Module Sim.

Definition digit_of (c : ascii) : option Z :=
  let n := Z.of_nat (nat_of_ascii c) in
  if (48 <=? n) && (n <=? 57) then Some (n - 48) else None.

(** The digits of [s] read as a number, with how many there were. *)
Fixpoint digits (acc : Z) (count : nat) (s : string) : option (Z * nat) :=
  match s with
  | EmptyString => Some (acc, count)
  | String c s' =>
      match digit_of c with
      | Some d => digits (10 * acc + d) (S count) s'
      | None => None
      end
  end.

(** [s] cut at its first point, if it has one. *)
Fixpoint split_point (s : string) : string * option string :=
  match s with
  | EmptyString => (EmptyString, None)
  | String c s' =>
      if Ascii.eqb c "." then (EmptyString, Some s')
      else let (a, b) := split_point s' in (String c a, b)
  end.

Definition unsigned_thousandths (s : string) : option Z :=
  let (ip, fp) := split_point s in
  match digits 0 0 ip with
  | Some (i, S _) =>
      match fp with
      | None => Some (1000 * i)
      | Some f =>
          match digits 0 0 f with
          | Some (_, O) => Some (1000 * i)
          | Some (d, 1%nat) => Some (1000 * i + 100 * d)
          | Some (d, 2%nat) => Some (1000 * i + 10 * d)
          | Some (d, 3%nat) => Some (1000 * i + d)
          | _ => None
          end
      end
  | _ => None
  end.

Definition signed (p : string -> option Z) (s : string) : option Z :=
  match s with
  | String "-" s' => option_map Z.opp (p s')
  | String "+" s' => p s'
  | _ => p s
  end.

Definition parse_float : string -> option Z := signed unsigned_thousandths.

Definition unsigned_int (s : string) : option Z :=
  match digits 0 0 s with
  | Some (i, S _) => Some i
  | _ => None
  end.

Definition parse_int : string -> option Z := signed unsigned_int.

(** [int(x)] truncates towards zero. *)
Definition trunc (x : Z) : exn + Z := inr (Z.quot x 1000).

Definition digit_char (d : Z) : ascii := ascii_of_nat (Z.to_nat (48 + d)).

Fixpoint nat_digits (fuel : nat) (n : Z) (acc : string) : string :=
  match fuel with
  | O => acc
  | S k =>
      let acc' := String (digit_char (n mod 10)) acc in
      if n / 10 =? 0 then acc' else nat_digits k (n / 10) acc'
  end.

Definition show_nat (n : Z) : string :=
  nat_digits (S (Z.to_nat (Z.log2 n))) n EmptyString.

(** The shortest decimal with at least one digit after the point. *)
Definition show_float (x : Z) : string :=
  let a := Z.abs x in
  let f := a mod 1000 in
  let frac :=
    if f mod 100 =? 0 then String (digit_char (f / 100)) EmptyString
    else if f mod 10 =? 0 then
      String (digit_char (f / 100))
        (String (digit_char (f / 10 mod 10)) EmptyString)
    else
      String (digit_char (f / 100))
        (String (digit_char (f / 10 mod 10))
           (String (digit_char (f mod 10)) EmptyString)) in
  (if x <? 0 then "-" else "") ++ show_nat (a / 1000) ++ "." ++ frac.

Definition show_exn (e : exn) : string :=
  match e with
  | ValueError => "ValueError"
  | UnicodeDecodeError => "UnicodeDecodeError"
  | OverflowError => "OverflowError"
  | SerialException => "SerialException"
  end.

Definition builtins : Builtins :=
  {| pyfloat := Z;
     float_of_str := parse_float;
     int_of_float := trunc;
     int_of_str := parse_int;
     str_of_float := show_float;
     str_of_exn := show_exn;
     float_0_0 := 0;
     float_21_0 := 21000 |}.

(** How many times [c] has been written. *)
Definition times (c : string) (h : list string) : nat :=
  List.length (filter (String.eqb c) h).

(** An instrument whose port opens and that answers each command by a
    fixed line, and anything else by an empty line. *)
Definition table (t : list (string * string)) : Device :=
  {| dev_open := None;
     dev_reply := fun h =>
       match find (fun p => String.eqb (fst p) (current h)) t with
       | Some p => Line (snd p)
       | None => Line ""
       end |}.

(** The instrument of the reference run. *)
Definition reference : Device :=
  table [(STATUS, "0"); (IN_PV_00, "23.5"); (IN_PV_02, "1.2");
         (IN_SP_00, "21.0"); (STAT, "OK"); (IN_MODE_02, "0")].

(** The reference instrument with another answer to [c]. *)
Definition answering (c line : string) : Device :=
  {| dev_open := None;
     dev_reply := fun h =>
       if String.eqb (current h) c then Line line
       else dev_reply reference h |}.

(** The reference instrument whose port raises on [c]. *)
Definition failing (c : string) (e : exn) : Device :=
  {| dev_open := None;
     dev_reply := fun h =>
       if String.eqb (current h) c then Raise e
       else dev_reply reference h |}.

(** The reference instrument with another answer to the [k]-th [STATUS]
    written; the first one is the probe of [init_device]. *)
Definition nth_status (k : nat) (line : string) : Device :=
  {| dev_open := None;
     dev_reply := fun h =>
       if String.eqb (current h) STATUS && Nat.eqb (times STATUS h) k
       then Line line
       else dev_reply reference h |}.

(** An alarm on the first [STATUS] of the polling, none afterwards. *)
Definition alarm_once : Device := nth_status 2 "-1".

(** The server right after a successful start-up on the reference
    instrument. *)
Definition started : @World builtins :=
  snd (@init_device builtins reference (@boot builtins)).

(** An instrument whose port cannot be opened. *)
Definition absent : Device :=
  {| dev_open := Some SerialException;
     dev_reply := fun _ => Raise SerialException |}.

End Sim.

(** The same interpreter with the two special floats of Python: the
    literals [inf] and [nan], whose conversion to an integer raises
    [OverflowError] and [ValueError]. *)
Module Special.

Inductive xfloat : Type :=
| Finite (thousandths : Z)
| Infinity
| NaN.

Definition parse_float (s : string) : option xfloat :=
  if String.eqb s "inf" then Some Infinity
  else if String.eqb s "nan" then Some NaN
  else option_map Finite (Sim.parse_float s).

Definition to_int (x : xfloat) : exn + Z :=
  match x with
  | Finite z => Sim.trunc z
  | Infinity => inl OverflowError
  | NaN => inl ValueError
  end.

Definition show_float (x : xfloat) : string :=
  match x with
  | Finite z => Sim.show_float z
  | Infinity => "inf"
  | NaN => "nan"
  end.

Definition builtins : Builtins :=
  {| pyfloat := xfloat;
     float_of_str := parse_float;
     int_of_float := to_int;
     int_of_str := Sim.parse_int;
     str_of_float := show_float;
     str_of_exn := Sim.show_exn;
     float_0_0 := Finite 0;
     float_21_0 := Finite 21000 |}.

End Special.


(** * Properties *)

(** ** The trace projections and the monad *)

Section Facts.

Context {B : Builtins}.
Variable dev : Device.

Lemma sent_app (t u : list Event) : sent (t ++ u) = (sent t ++ sent u)%list.
Proof.
  induction t as [|e t IH]; [reflexivity|].
  destruct e; cbn; rewrite IH; reflexivity.
Qed.

Lemma pushed_app (t u : list Event) :
  pushed (t ++ u) = (pushed t ++ pushed u)%list.
Proof.
  induction t as [|e t IH]; [reflexivity|].
  destruct e; cbn; rewrite IH; reflexivity.
Qed.

Lemma exchange_line (c : string) (w : World) (r : string) :
  dev_reply dev (sent (trace w) ++ [c]) = Line r ->
  exchange dev c w = (inr r, mkWorld (self w) (trace w ++ [Write c])).
Proof.
  intros H. unfold exchange. rewrite sent_app. cbn. rewrite H. reflexivity.
Qed.

Lemma exchange_raise (c : string) (w : World) (e : exn) :
  dev_reply dev (sent (trace w) ++ [c]) = Raise e ->
  exchange dev c w = (inl e, mkWorld (self w) (trace w ++ [Write c])).
Proof.
  intros H. unfold exchange. rewrite sent_app. cbn. rewrite H. reflexivity.
Qed.

(** An exchange changes no attribute and adds exactly its write. *)
Lemma exchange_world (c : string) (w : World) :
  snd (exchange dev c w) = mkWorld (self w) (trace w ++ [Write c]).
Proof.
  unfold exchange. destruct (dev_reply dev _); reflexivity.
Qed.

Lemma bind_inr {A C} (m : M A) (k : A -> M C) (w w' : World) (a : A) :
  m w = (inr a, w') -> bind m k w = k a w'.
Proof. intros H. unfold bind. rewrite H. reflexivity. Qed.

Lemma bind_inl {A C} (m : M A) (k : A -> M C) (w w' : World) (e : exn) :
  m w = (inl e, w') -> bind m k w = (inl e, w').
Proof. intros H. unfold bind. rewrite H. reflexivity. Qed.

Lemma bind_assoc {A C D} (m : M A) (k : A -> M C) (h : C -> M D) (w : World) :
  bind (bind m k) h w = bind m (fun a => bind (k a) h) w.
Proof.
  unfold bind. destruct (m w) as [[e|a] w1]; reflexivity.
Qed.

End Facts.

Ltac run :=
  unfold bind, ret, raise, modify, get, emit, try_except_ValueError,
    try_except_Exception, py_float, py_int, py_int_str; cbn.

Section Steps.

Context {B : Builtins}.
Variable dev : Device.

(** ** The float readings: last good value *)

Lemma read_bath_temp_run (w : World) (R : string) :
  dev_reply dev (sent (trace w) ++ [IN_PV_00]) = Line R ->
  _read_bath_temp dev w =
  match float_of_str R with
  | Some x =>
      (inr tt, mkWorld (set_bath_temp x (self w))
                       (trace w ++ [Write IN_PV_00]))
  | None =>
      (inr tt, mkWorld (self w)
                       (trace w ++ [Write IN_PV_00;
                          ErrorStream ("Invalid temperature response: " ++ R)]))
  end.
Proof.
  intros H. unfold _read_bath_temp.
  rewrite (bind_inr _ _ _ (exchange_line dev _ _ H)).
  run. destruct (float_of_str R); cbn; [reflexivity|].
  rewrite <- app_assoc. reflexivity.
Qed.

Lemma read_pressure_run (w : World) (R : string) :
  dev_reply dev (sent (trace w) ++ [IN_PV_02]) = Line R ->
  _read_pressure dev w =
  match float_of_str R with
  | Some x =>
      (inr tt, mkWorld (set_pressure x (self w))
                       (trace w ++ [Write IN_PV_02]))
  | None =>
      (inr tt, mkWorld (self w)
                       (trace w ++ [Write IN_PV_02;
                          ErrorStream ("Invalid pressure response: " ++ R)]))
  end.
Proof.
  intros H. unfold _read_pressure.
  rewrite (bind_inr _ _ _ (exchange_line dev _ _ H)).
  run. destruct (float_of_str R); cbn; [reflexivity|].
  rewrite <- app_assoc. reflexivity.
Qed.

Lemma read_setp_run (w : World) (R : string) :
  dev_reply dev (sent (trace w) ++ [IN_SP_00]) = Line R ->
  _read_setp dev w =
  match float_of_str R with
  | Some x =>
      (inr tt, mkWorld (set_temp_setp x (self w))
                       (trace w ++ [Write IN_SP_00]))
  | None =>
      (inr tt, mkWorld (self w)
                       (trace w ++ [Write IN_SP_00;
                          ErrorStream ("Invalid setpoint read response: " ++ R)]))
  end.
Proof.
  intros H. unfold _read_setp.
  rewrite (bind_inr _ _ _ (exchange_line dev _ _ H)).
  run. destruct (float_of_str R); cbn; [reflexivity|].
  rewrite <- app_assoc. reflexivity.
Qed.

(** C2: a bath-temperature or pressure line that parses as a float is
    stored as exactly that float; a line that does not parse leaves the
    reading, and every other attribute, as it was before the call. *)
Theorem float_reading_last_good_value (w : World) (R : string) :
  (dev_reply dev (sent (trace w) ++ [IN_PV_00]) = Line R ->
   let w' := snd (_read_bath_temp dev w) in
   (forall x, float_of_str R = Some x ->
              read_bath_temp (self w') = x) /\
   (float_of_str R = None ->
    read_bath_temp (self w') = read_bath_temp (self w) /\ self w' = self w))
  /\
  (dev_reply dev (sent (trace w) ++ [IN_PV_02]) = Line R ->
   let w' := snd (_read_pressure dev w) in
   (forall x, float_of_str R = Some x ->
              read_pressure (self w') = x) /\
   (float_of_str R = None ->
    read_pressure (self w') = read_pressure (self w) /\ self w' = self w)).
Proof.
  split; intros H w'; subst w'.
  - rewrite (read_bath_temp_run _ H).
    split; [intros x Hx | intros Hx]; rewrite Hx; cbn; auto.
  - rewrite (read_pressure_run _ H).
    split; [intros x Hx | intros Hx]; rewrite Hx; cbn; auto.
Qed.

(** ** The status read *)

Lemma stat_tail_state (w : World) :
  state (self (snd (stat_tail dev w))) = state (self w).
Proof.
  unfold stat_tail, bind, exchange.
  destruct (dev_reply dev _); reflexivity.
Qed.

Lemma stat_tail_line (w : World) (T : string) :
  dev_reply dev (sent (trace w) ++ [STAT]) = Line T ->
  stat_tail dev w =
  (inr tt, mkWorld (set_chiller_status T (self w)) (trace w ++ [Write STAT])).
Proof.
  intros H. unfold stat_tail.
  rewrite (bind_inr _ _ _ (exchange_line dev _ _ H)). reflexivity.
Qed.

Lemma read_chiller_status_run (w : World) (R : string) (x : pyfloat) (r : Z) :
  dev_reply dev (sent (trace w) ++ [STATUS]) = Line R ->
  float_of_str R = Some x ->
  int_of_float x = inr r ->
  _read_chiller_status dev w = stat_tail dev (after_status_code r w).
Proof.
  intros H Hx Hr. unfold _read_chiller_status.
  rewrite (bind_inr _ _ _ (exchange_line dev _ _ H)).
  unfold after_status_code, stat_tail.
  run. rewrite Hx. cbn. rewrite Hr. cbn.
  destruct (r =? 0); cbn; [reflexivity|].
  destruct (r =? -1); cbn; [|reflexivity].
  rewrite <- app_assoc. reflexivity.
Qed.

(** A status line that is not a float raises out of the function: the
    parse is not inside a [try]. *)
Lemma read_chiller_status_not_float (w : World) (R : string) :
  dev_reply dev (sent (trace w) ++ [STATUS]) = Line R ->
  float_of_str R = None ->
  _read_chiller_status dev w =
  (inl ValueError, mkWorld (self w) (trace w ++ [Write STATUS])).
Proof.
  intros H Hx. unfold _read_chiller_status.
  rewrite (bind_inr _ _ _ (exchange_line dev _ _ H)).
  run. rewrite Hx. reflexivity.
Qed.

(** ** The mode read *)

Lemma read_is_on_run (w : World) (R : string) (x : pyfloat) (r : Z) :
  dev_reply dev (sent (trace w) ++ [IN_MODE_02]) = Line R ->
  float_of_str R = Some x ->
  int_of_float x = inr r ->
  _read_is_on dev w =
  (inr tt,
   mkWorld (if r =? 0 then set_state RUNNING (set_is_on true (self w))
            else if r =? 1 then set_is_on false (self w)
            else self w)
           (trace w ++ [Write IN_MODE_02])).
Proof.
  intros H Hx Hr. unfold _read_is_on.
  rewrite (bind_inr _ _ _ (exchange_line dev _ _ H)).
  run. rewrite Hx. cbn. rewrite Hr. cbn.
  destruct (r =? 0); cbn; [reflexivity|].
  destruct (r =? 1); reflexivity.
Qed.

Lemma read_is_on_not_float (w : World) (R : string) :
  dev_reply dev (sent (trace w) ++ [IN_MODE_02]) = Line R ->
  float_of_str R = None ->
  _read_is_on dev w =
  (inr tt,
   mkWorld (self w)
           (trace w ++ [Write IN_MODE_02;
                        ErrorStream ("Invalid is_on response: " ++ R)])).
Proof.
  intros H Hx. unfold _read_is_on.
  rewrite (bind_inr _ _ _ (exchange_line dev _ _ H)).
  run. rewrite Hx. cbn. rewrite <- app_assoc. reflexivity.
Qed.

(** C9: whatever the state before (FAULT included), a mode line that
    parses to the integer 0 sets [is_on] and the state RUNNING, one that
    parses to 1 clears [is_on] and leaves the state, and any other integer
    leaves both. *)
Theorem mode_read_transitions
  (w : World) (R : string) (x : pyfloat) (r : Z)
  (Hline : dev_reply dev (sent (trace w) ++ [IN_MODE_02]) = Line R)
  (Hfloat : float_of_str R = Some x)
  (Hint : int_of_float x = inr r) :
  let s' := self (snd (_read_is_on dev w)) in
  (r = 0 -> read_is_on s' = true /\ state s' = RUNNING) /\
  (r = 1 -> read_is_on s' = false /\ state s' = state (self w)) /\
  (r <> 0 -> r <> 1 ->
   read_is_on s' = read_is_on (self w) /\ state s' = state (self w)).
Proof.
  intros s'. subst s'. rewrite (read_is_on_run _ Hline Hfloat Hint). cbn.
  repeat split; intros; subst; cbn; try reflexivity.
  - destruct (Z.eqb_spec r 0); [contradiction|].
    destruct (Z.eqb_spec r 1); [contradiction|]. reflexivity.
  - destruct (Z.eqb_spec r 0); [contradiction|].
    destruct (Z.eqb_spec r 1); [contradiction|]. reflexivity.
Qed.

(** ** The pending writes *)

Lemma write_is_on_idle (w : World) :
  _is_on_toggle (self w) = false -> _write_is_on dev w = (inr tt, w).
Proof.
  intros H. unfold _write_is_on. run. rewrite H. reflexivity.
Qed.

Lemma write_is_on_run (w : World) (R : string) :
  _is_on_toggle (self w) = true ->
  dev_reply dev
    (sent (trace w) ++ [if _is_on (self w) then START else STOP]) = Line R ->
  _write_is_on dev w =
  (inr tt,
   mkWorld
     (set_is_on_toggle false
        (set_state (if _is_on (self w) then RUNNING else ON) (self w)))
     (trace w ++
      [Write (if _is_on (self w) then START else STOP);
       InfoStream ("On/Off state toggled, response: " ++ R);
       Sleep 1;
       PushChangeEvent "is_on" (_is_on (self w))])).
Proof.
  intros Ht H. unfold _write_is_on. run. rewrite Ht.
  unfold exchange. rewrite sent_app. cbn [sent].
  destruct (_is_on (self w)) eqn:Hon; rewrite H;
    cbn; rewrite ?Hon; cbn; rewrite ?Hon;
    repeat rewrite <- app_assoc; reflexivity.
Qed.

Lemma write_is_on_raise (w : World) (e : exn) :
  _is_on_toggle (self w) = true ->
  dev_reply dev
    (sent (trace w) ++ [if _is_on (self w) then START else STOP]) = Raise e ->
  _write_is_on dev w =
  (inl e,
   mkWorld (self w)
           (trace w ++ [Write (if _is_on (self w) then START else STOP)])).
Proof.
  intros Ht H. unfold _write_is_on. run. rewrite Ht.
  unfold exchange. rewrite sent_app. cbn [sent].
  destruct (_is_on (self w)); rewrite H; reflexivity.
Qed.

Lemma write_setp_idle (w : World) :
  _temp_setp_changed (self w) = false -> _write_setp dev w = (inr tt, w).
Proof.
  intros H. unfold _write_setp. run. rewrite H. reflexivity.
Qed.

Lemma write_setp_run (w : World) (R : string) :
  _temp_setp_changed (self w) = true ->
  dev_reply dev (sent (trace w) ++ [OUT_SP_00 (_temp_setp (self w))])
  = Line R ->
  _write_setp dev w =
  (inr tt,
   mkWorld
     (set_temp_setp_changed false (self w))
     (trace w ++
      [Write (OUT_SP_00 (_temp_setp (self w)));
       InfoStream ("Setpoint changed to " ++ str_of_float (_temp_setp (self w))
                   ++ ", response: " ++ R)])).
Proof.
  intros Ht H. unfold _write_setp. run. rewrite Ht.
  unfold exchange. rewrite sent_app. cbn [sent]. rewrite H. cbn.
  repeat rewrite <- app_assoc. reflexivity.
Qed.

Lemma write_setp_raise (w : World) (e : exn) :
  _temp_setp_changed (self w) = true ->
  dev_reply dev (sent (trace w) ++ [OUT_SP_00 (_temp_setp (self w))])
  = Raise e ->
  _write_setp dev w =
  (inl e,
   mkWorld (self w) (trace w ++ [Write (OUT_SP_00 (_temp_setp (self w)))])).
Proof.
  intros Ht H. unfold _write_setp. run. rewrite Ht.
  unfold exchange. rewrite sent_app. cbn [sent]. rewrite H. reflexivity.
Qed.

(** ** Start-up *)

Lemma init_device_open_fails (e : exn) :
  dev_open dev = Some e ->
  init_device dev boot =
  (inr tt,
   mkWorld (set_state FAULT init_self)
           [ErrorStream ("init_device: " ++ str_of_exn e)]).
Proof.
  intros H. unfold init_device, open_port. run. rewrite H. reflexivity.
Qed.

Lemma init_device_probe_not_int (R : string) :
  dev_open dev = None ->
  dev_reply dev [STATUS] = Line R ->
  int_of_str R = None ->
  init_device dev boot =
  (inr tt,
   mkWorld (set_state FAULT init_self)
           [Write STATUS;
            InfoStream ("init_device: status is: " ++ R);
            ErrorStream ("init_device: " ++ str_of_exn ValueError)]).
Proof.
  intros Ho H Hi. unfold init_device, open_port. run. rewrite Ho.
  unfold exchange. cbn. rewrite H. cbn. rewrite Hi. reflexivity.
Qed.

Lemma init_device_probe_int (R : string) (r : Z) :
  dev_open dev = None ->
  dev_reply dev [STATUS] = Line R ->
  int_of_str R = Some r ->
  init_device dev boot =
  (inr tt,
   mkWorld
     (set_comm_thread true
        (if r =? 0 then set_state ON init_self
         else if r =? -1 then set_state FAULT init_self
         else init_self))
     ([Write STATUS; InfoStream ("init_device: status is: " ++ R)] ++
      (if r =? 0 then []
       else if r =? -1 then [ErrorStream "Chiller is in alarm state"]
       else []) ++
      [ThreadStart])).
Proof.
  intros Ho H Hi. unfold init_device, open_port. run. rewrite Ho.
  unfold exchange. cbn. rewrite H. cbn. rewrite !Hi. cbn.
  destruct (r =? 0); cbn; [reflexivity|].
  destruct (r =? -1); reflexivity.
Qed.

(** C7: when the port cannot be opened, or the answer to the start-up
    STATUS probe is not an integer, [init_device] returns normally with
    the state FAULT and without starting the communication thread, which
    then never runs. *)
Theorem startup_failure_is_fault_without_worker (n : nat) :
  (exists e, dev_open dev = Some e) \/
  (dev_open dev = None /\
   exists R, dev_reply dev [STATUS] = Line R /\ int_of_str R = None) ->
  let w := snd (init_device dev boot) in
  fst (init_device dev boot) = inr tt /\
  state (self w) = FAULT /\
  comm_thread (self w) = false /\
  ~ In ThreadStart (trace w) /\
  server dev n = (inr tt, w).
Proof.
  intros [[e He] | [Ho [R [HR Hi]]]] w; subst w; unfold server.
  - rewrite (init_device_open_fails He). cbn.
    repeat split; try reflexivity.
    intros [H | []]; discriminate H.
  - rewrite (init_device_probe_not_int Ho HR Hi). cbn.
    repeat split; try reflexivity.
    intros [H | [H | [H | []]]]; discriminate H.
Qed.

(** C10: when the port opens and the start-up STATUS answer is an
    integer other than 0 and -1, [init_device] leaves the state INIT and
    starts the communication thread all the same. *)
Theorem startup_other_code_stays_init_and_polls
  (R : string) (r : Z) (n : nat)
  (Hopen : dev_open dev = None)
  (Hline : dev_reply dev [STATUS] = Line R)
  (Hint : int_of_str R = Some r)
  (Hnot0 : r <> 0)
  (Hnotm1 : r <> -1) :
  let w := snd (init_device dev boot) in
  fst (init_device dev boot) = inr tt /\
  state (self w) = INIT /\
  comm_thread (self w) = true /\
  In ThreadStart (trace w) /\
  server dev n = _communication_loop dev n w.
Proof.
  intros w; subst w; unfold server.
  rewrite (init_device_probe_int Hopen Hline Hint).
  destruct (Z.eqb_spec r 0) as [|_]; [contradiction|].
  destruct (Z.eqb_spec r (-1)) as [|_]; [contradiction|].
  cbn. repeat split; try reflexivity. right. right. left. reflexivity.
Qed.

End Steps.

(** ** What a statement adds to the trace *)

(** Case analysis on the innermost scrutinee of the goal. *)
Ltac split_inner x :=
  lazymatch x with
  | context [match ?y with _ => _ end] => split_inner y
  | _ => destruct x eqn:?
  end.

Ltac split_match :=
  match goal with
  | |- context [match ?x with _ => _ end] => split_inner x
  end.

Ltac paths :=
  unfold exchange; run; repeat (split_match; cbn).

Section Footprint.

Context {B : Builtins}.
Variable dev : Device.

Lemma preserves_bind {A C X} (f : World -> X) (m : M A) (k : A -> M C) :
  preserves f m -> (forall a, preserves f (k a)) -> preserves f (bind m k).
Proof.
  intros Hm Hk w. unfold bind. pose proof (Hm w) as H.
  destruct (m w) as [[e|a] w1]; cbn [snd] in *; [exact H|].
  rewrite (Hk a w1). exact H.
Qed.

Lemma emits_bind (m1 m2 : M unit) (w : World) (c1 c2 : list string) :
  emits m1 w c1 ->
  (fst (m1 w) = inr tt -> emits m2 (snd (m1 w)) c2) ->
  emits (bind m1 (fun _ => m2)) w (c1 ++ c2).
Proof.
  unfold emits, bind.
  destruct (m1 w) as [[e|[]] w1]; cbn [fst snd];
    intros (evs1 & Ht1 & (rest1 & Hp1) & Hf1) H2.
  - exists evs1. split; [assumption|]. split; [|discriminate].
    exists (rest1 ++ c2)%list. rewrite Hp1, app_assoc. reflexivity.
  - destruct (H2 eq_refl) as (evs2 & Ht2 & (rest2 & Hp2) & Hf2).
    exists (evs1 ++ evs2)%list. rewrite Ht2, Ht1, sent_app, app_assoc.
    rewrite (Hf1 eq_refl). split; [reflexivity|]. split.
    + exists rest2. rewrite Hp2, app_assoc. reflexivity.
    + intros H. rewrite (Hf2 H). reflexivity.
Qed.

Ltac emits_leaf :=
  first
    [ exists []; rewrite app_nil_r; split; [reflexivity|]
    | eexists; split; [rewrite <- ?app_assoc; reflexivity|] ];
  (split; [eexists; cbn; reflexivity | intros; try discriminate; reflexivity]).

Lemma read_bath_temp_emits (w : World) :
  emits (_read_bath_temp dev) w [IN_PV_00].
Proof. unfold emits, _read_bath_temp. paths; emits_leaf. Qed.

Lemma read_pressure_emits (w : World) :
  emits (_read_pressure dev) w [IN_PV_02].
Proof. unfold emits, _read_pressure. paths; emits_leaf. Qed.

Lemma read_setp_emits (w : World) :
  emits (_read_setp dev) w [IN_SP_00].
Proof. unfold emits, _read_setp. paths; emits_leaf. Qed.

Lemma read_chiller_status_emits (w : World) :
  emits (_read_chiller_status dev) w [STATUS; STAT].
Proof. unfold emits, _read_chiller_status. paths; emits_leaf. Qed.

Lemma read_is_on_emits (w : World) :
  emits (_read_is_on dev) w [IN_MODE_02].
Proof. unfold emits, _read_is_on. paths; emits_leaf. Qed.

Lemma write_is_on_emits (w : World) :
  emits (_write_is_on dev) w (power_cmd (self w)).
Proof.
  unfold emits, _write_is_on, power_cmd. paths; emits_leaf.
Qed.

Lemma write_setp_emits (w : World) :
  emits (_write_setp dev) w (setp_cmd (self w)).
Proof.
  unfold emits, _write_setp, setp_cmd. paths; emits_leaf.
Qed.

(** The power flush does not touch the setpoint or its pending flag. *)
Lemma write_is_on_keeps_setp :
  preserves (fun w => setp_cmd (self w)) (_write_is_on dev).
Proof.
  intros w. unfold _write_is_on, setp_cmd. paths; reflexivity.
Qed.

Lemma flush_block_emits (w : World) :
  emits (flush_block dev) w (flush_cmds (self w)).
Proof.
  unfold flush_block, flush_cmds. apply emits_bind.
  - apply write_is_on_emits.
  - intros _. rewrite <- (write_is_on_keeps_setp w). apply write_setp_emits.
Qed.

Lemma read_block_emits (w : World) :
  emits (read_block dev) w [IN_PV_00; IN_PV_02; IN_SP_00; STATUS; STAT].
Proof.
  unfold read_block.
  apply (emits_bind (c1 := [IN_PV_00])); [apply read_bath_temp_emits|intros _].
  apply (emits_bind (c1 := [IN_PV_02])); [apply read_pressure_emits|intros _].
  apply (emits_bind (c1 := [IN_SP_00])); [apply read_setp_emits|intros _].
  apply read_chiller_status_emits.
Qed.

Lemma cycle_emits (w : World) :
  emits (cycle dev) w (flush_cmds (self w) ++ read_cmds).
Proof.
  unfold cycle. apply emits_bind; [apply flush_block_emits|intros _].
  apply (emits_bind (c1 := [IN_PV_00; IN_PV_02; IN_SP_00; STATUS; STAT]));
    [apply read_block_emits|intros _].
  apply read_is_on_emits.
Qed.

(** *** The pending flags *)

Lemma read_bath_temp_pending : preserves pending (_read_bath_temp dev).
Proof. intros w. unfold _read_bath_temp, pending. paths; reflexivity. Qed.

Lemma read_pressure_pending : preserves pending (_read_pressure dev).
Proof. intros w. unfold _read_pressure, pending. paths; reflexivity. Qed.

Lemma read_setp_pending : preserves pending (_read_setp dev).
Proof. intros w. unfold _read_setp, pending. paths; reflexivity. Qed.

Lemma read_chiller_status_pending :
  preserves pending (_read_chiller_status dev).
Proof.
  intros w. unfold _read_chiller_status, pending. paths; reflexivity.
Qed.

Lemma read_is_on_pending : preserves pending (_read_is_on dev).
Proof. intros w. unfold _read_is_on, pending. paths; reflexivity. Qed.

Lemma reads_pending :
  preserves pending (bind (read_block dev) (fun _ => _read_is_on dev)).
Proof.
  unfold read_block.
  repeat (apply preserves_bind; [|intros _]);
    auto using read_bath_temp_pending, read_pressure_pending,
      read_setp_pending, read_chiller_status_pending, read_is_on_pending.
Qed.

(** A flush block that returns has cleared both flags. *)
Lemma flush_block_clears (w : World) :
  fst (flush_block dev w) = inr tt ->
  pending (snd (flush_block dev w)) = (false, false).
Proof.
  unfold flush_block, _write_is_on, _write_setp, pending.
  paths; intros H; try discriminate H; cbn in *; congruence.
Qed.

(** The reads of a cycle leave the flags as the flush block left them,
    however they end. *)
Lemma cycle_pending (w : World) :
  pending (snd (cycle dev w)) = pending (snd (flush_block dev w)).
Proof.
  unfold cycle. pose proof (reads_pending (snd (flush_block dev w))) as Hr.
  unfold bind in *.
  destruct (flush_block dev w) as [[e|[]] w1]; cbn [fst snd] in *;
    [reflexivity|exact Hr].
Qed.

Lemma cycle_returns_flush_returns (w : World) :
  fst (cycle dev w) = inr tt -> fst (flush_block dev w) = inr tt.
Proof.
  unfold cycle, bind.
  destruct (flush_block dev w) as [[e|[]] w1]; cbn [fst]; intros H;
    [discriminate H|reflexivity].
Qed.

(** C3: whatever the instrument does, the commands a cycle writes are,
    in this order, the pending power command, the pending
    [OUT_SP_00_<value>], then IN_PV_00, IN_PV_02, IN_SP_00, STATUS, STAT
    and IN_MODE_02; a cycle cut short by an exception has written a
    prefix of that list, a cycle that completes has written all of it,
    and once the flush block has returned both pending flags are clear
    for the rest of the cycle. *)
Theorem cycle_flushes_then_reads_in_order (w : World) :
  exists evs,
    trace (snd (cycle dev w)) = (trace w ++ evs)%list /\
    (exists rest, (flush_cmds (self w) ++ read_cmds)%list
                  = (sent evs ++ rest)%list) /\
    (fst (cycle dev w) = inr tt ->
     sent evs = (flush_cmds (self w) ++ read_cmds)%list) /\
    (fst (flush_block dev w) = inr tt ->
     _temp_setp_changed (self (snd (cycle dev w))) = false /\
     _is_on_toggle (self (snd (cycle dev w))) = false).
Proof.
  destruct (cycle_emits w) as (evs & Ht & Hp & Hf).
  exists evs. split; [exact Ht|]. split; [exact Hp|]. split; [exact Hf|].
  intros H. pose proof (flush_block_clears w H) as Hc.
  rewrite <- cycle_pending in Hc. unfold pending in Hc.
  split; congruence.
Qed.

(** ** Power requests *)













End Footprint.

(** ** Polling goes on *)

Section Polling.

Context {B : Builtins}.
Variable dev : Device.

Lemma returns_bind (m : M unit) (k : M unit) :
  returns m -> returns k -> returns (bind m (fun _ => k)).
Proof.
  intros Hm Hk w. unfold bind. specialize (Hm w).
  destruct (m w) as [[e|[]] w1]; cbn in *; [discriminate Hm|apply Hk].
Qed.

Lemma current_sent (t : list Event) (c : string) :
  current (sent (t ++ [Write c])) = c.
Proof. rewrite sent_app. cbn. unfold current. apply last_last. Qed.

Hypothesis Hpolite : polite dev.

Ltac polite_leaf :=
  try reflexivity;
  match goal with
  | H : dev_reply dev ?h = Raise _ |- _ =>
      destruct (Hpolite h) as (? & ? & _); congruence
  end.

Lemma polite_write_is_on : returns (_write_is_on dev).
Proof. intros w. unfold _write_is_on. paths; polite_leaf. Qed.

Lemma polite_write_setp : returns (_write_setp dev).
Proof. intros w. unfold _write_setp. paths; polite_leaf. Qed.

Lemma polite_read_bath_temp : returns (_read_bath_temp dev).
Proof. intros w. unfold _read_bath_temp. paths; polite_leaf. Qed.

Lemma polite_read_pressure : returns (_read_pressure dev).
Proof. intros w. unfold _read_pressure. paths; polite_leaf. Qed.

Lemma polite_read_setp : returns (_read_setp dev).
Proof. intros w. unfold _read_setp. paths; polite_leaf. Qed.

Lemma polite_stat_tail : returns (stat_tail dev).
Proof. intros w. unfold stat_tail. paths; polite_leaf. Qed.

Lemma polite_read_chiller_status : returns (_read_chiller_status dev).
Proof.
  intros w.
  destruct (Hpolite (sent (trace w ++ [Write STATUS])))
    as (R & HR & Hst & _).
  destruct (Hst (current_sent _ _)) as (x & r & Hx & Hr).
  rewrite sent_app in HR. cbn in HR.
  rewrite (read_chiller_status_run dev w HR Hx Hr).
  apply polite_stat_tail.
Qed.

Lemma polite_read_is_on : returns (_read_is_on dev).
Proof.
  intros w.
  destruct (Hpolite (sent (trace w ++ [Write IN_MODE_02])))
    as (R & HR & _ & Hmode).
  specialize (Hmode (current_sent _ _)).
  unfold _read_is_on, bind, exchange. rewrite HR. run.
  destruct (float_of_str R) as [x|] eqn:Hx; cbn; [|reflexivity].
  destruct (int_of_float x) as [e|r] eqn:Hr; cbn.
  - rewrite (Hmode x e eq_refl Hr). reflexivity.
  - destruct (r =? 0); [reflexivity|]. destruct (r =? 1); reflexivity.
Qed.

Lemma polite_cycle : returns (cycle dev).
Proof.
  unfold cycle, flush_block, read_block.
  repeat apply returns_bind;
    auto using polite_write_is_on, polite_write_setp, polite_read_bath_temp,
      polite_read_pressure, polite_read_setp, polite_read_chiller_status,
      polite_read_is_on.
Qed.

(** With a polite instrument the loop never ends, alarms or not. *)
Lemma polite_loop (n : nat) : returns (_communication_loop dev n).
Proof.
  induction n as [|n IH]; intros w; [reflexivity|].
  cbn [_communication_loop]. apply returns_bind; [apply polite_cycle|].
  apply returns_bind; [intros w'; reflexivity|exact IH].
Qed.

End Polling.

(** ** What several iterations write *)

Section LoopFootprint.

Context {B : Builtins}.
Variable dev : Device.

Lemma emits_sleep (n : nat) (w : World) : emits (emit (Sleep n)) w [].
Proof.
  exists [Sleep n]. cbn. repeat split. exists []. reflexivity.
Qed.

Lemma flush_cmds_idle (w : World) :
  pending w = (false, false) -> flush_cmds (self w) = [].
Proof.
  unfold pending, flush_cmds, power_cmd, setp_cmd. intros H.
  injection H as -> ->. reflexivity.
Qed.

Lemma flush_block_idle (w : World) :
  pending w = (false, false) -> flush_block dev w = (inr tt, w).
Proof.
  unfold pending. intros H. injection H as Ht Hc. unfold flush_block, bind.
  rewrite (write_is_on_idle dev w Ht), (write_setp_idle dev w Hc).
  reflexivity.
Qed.

(** A completed cycle leaves no request pending. *)
Lemma cycle_returns_idle (w : World) :
  fst (cycle dev w) = inr tt -> pending (snd (cycle dev w)) = (false, false).
Proof.
  intros H. rewrite cycle_pending. apply flush_block_clears.
  apply cycle_returns_flush_returns. exact H.
Qed.

(** A cycle started idle ends idle, however it ends. *)
Lemma cycle_stays_idle (w : World) :
  pending w = (false, false) -> pending (snd (cycle dev w)) = (false, false).
Proof.
  intros H. rewrite cycle_pending, (flush_block_idle H). exact H.
Qed.

Lemma loop_stays_idle (n : nat) (w : World) :
  pending w = (false, false) ->
  pending (snd (_communication_loop dev n w)) = (false, false).
Proof.
  revert w. induction n as [|n IH]; intros w H; [exact H|].
  cbn [_communication_loop]. unfold bind.
  pose proof (cycle_stays_idle H) as Hc.
  destruct (cycle dev w) as [[e|[]] w1]; cbn [snd] in *; [exact Hc|].
  cbn. apply IH. exact Hc.
Qed.

Lemma loop_idle_emits (n : nat) (w : World) :
  pending w = (false, false) ->
  emits (_communication_loop dev n) w (rounds n).
Proof.
  revert w. induction n as [|n IH]; intros w H.
  - exists []. cbn. rewrite app_nil_r. repeat split. exists []. reflexivity.
  - cbn [_communication_loop]. unfold rounds. cbn [repeat concat].
    apply emits_bind.
    + pose proof (cycle_emits dev w) as Hc.
      rewrite (flush_cmds_idle H) in Hc. exact Hc.
    + intros Hret.
      apply (emits_bind (c1 := [])); [apply emits_sleep|]. intros _.
      apply IH. apply cycle_stays_idle. exact H.
Qed.

(** The writes of [n + 1] iterations, whatever was pending at the start. *)
Lemma loop_emits (n : nat) (w : World) :
  emits (_communication_loop dev (S n)) w
        (flush_cmds (self w) ++ rounds (S n)).
Proof.
  cbn [_communication_loop]. unfold rounds. cbn [repeat concat].
  rewrite app_assoc. apply emits_bind; [apply cycle_emits|].
  intros Hret. apply (emits_bind (c1 := [])); [apply emits_sleep|].
  intros _. apply loop_idle_emits. cbn [emit snd].
  apply (cycle_returns_idle w Hret).
Qed.

(** The commands written so far once [n + 1] iterations have returned. *)
Lemma loop_sent (n : nat) (w : World) :
  fst (_communication_loop dev (S n) w) = inr tt ->
  sent (trace (snd (_communication_loop dev (S n) w))) =
  (sent (trace w) ++ flush_cmds (self w) ++ rounds (S n))%list.
Proof.
  intros Hret. destruct (loop_emits n w) as (evs & Ht & _ & Hf).
  rewrite Ht, sent_app, (Hf Hret). reflexivity.
Qed.

Lemma read_chiller_status_sent (w : World) :
  fst (_read_chiller_status dev w) = inr tt ->
  sent (trace (snd (_read_chiller_status dev w))) =
  (sent (trace w) ++ [STATUS; STAT])%list.
Proof.
  intros Hret.
  destruct (read_chiller_status_emits dev w) as (evs & Ht & _ & Hf).
  rewrite Ht, sent_app, (Hf Hret). reflexivity.
Qed.

End LoopFootprint.

Section Alarm.

Context {B : Builtins}.
Variable dev : Device.

(** C5: a STATUS answer that converts to -1 sets the state FAULT, and
    one that converts to 0 leaves the state as it is, FAULT included; the
    alarm ends neither the status read, which goes on to the STAT
    exchange, nor the loop: with a polite instrument every iteration,
    alarm or not, returns and writes all six read commands. *)
Theorem status_alarm_sets_fault_and_zero_keeps_it
  (w : World) (R : string) (x : pyfloat) (r : Z)
  (Hline : dev_reply dev (sent (trace w) ++ [STATUS]) = Line R)
  (Hfloat : float_of_str R = Some x)
  (Hint : int_of_float x = inr r) :
  let s' := self (snd (_read_chiller_status dev w)) in
  (r = -1 -> state s' = FAULT) /\
  (r = 0 -> state s' = state (self w)) /\
  (polite dev ->
   fst (_read_chiller_status dev w) = inr tt /\
   sent (trace (snd (_read_chiller_status dev w))) =
     (sent (trace w) ++ [STATUS; STAT])%list /\
   (forall n w0, fst (_communication_loop dev n w0) = inr tt) /\
   (forall n w0,
      sent (trace (snd (_communication_loop dev (S n) w0))) =
      (sent (trace w0) ++ flush_cmds (self w0) ++ rounds (S n))%list)).
Proof.
  intros s'. subst s'. split; [|split].
  - rewrite (read_chiller_status_run dev w Hline Hfloat Hint).
    rewrite stat_tail_state. unfold after_status_code.
    intros ->. reflexivity.
  - rewrite (read_chiller_status_run dev w Hline Hfloat Hint).
    rewrite stat_tail_state. unfold after_status_code.
    intros ->. reflexivity.
  - intros Hp.
    assert (Hret : fst (_read_chiller_status dev w) = inr tt)
      by (apply polite_read_chiller_status; exact Hp).
    split; [exact Hret|].
    split; [exact (read_chiller_status_sent dev w Hret)|].
    split.
    + intros n w0. apply polite_loop. exact Hp.
    + intros n w0. apply loop_sent. apply polite_loop. exact Hp.
Qed.

Lemma cycle_from_status (w w1 : World) :
  before_status dev w = (inr tt, w1) ->
  cycle dev w =
  bind (_read_chiller_status dev) (fun _ => _read_is_on dev) w1.
Proof.
  unfold before_status, cycle, read_block, bind.
  destruct (flush_block dev w) as [[e|[]] wa]; [discriminate|].
  destruct (_read_bath_temp dev wa) as [[e|[]] wb]; [discriminate|].
  destruct (_read_pressure dev wb) as [[e|[]] wc]; [discriminate|].
  destruct (_read_setp dev wc) as [[e|[]] wd]; [discriminate|].
  intros H. injection H as ->. reflexivity.
Qed.

(** C1, at the STATUS step: in any cycle that reaches the STATUS
    exchange, an answer that is not a float raises [ValueError] out of
    [_read_chiller_status] and out of the loop: the thread ends there,
    having written STATUS and nothing after it. *)
Theorem status_decode_error_ends_worker
  (w w1 : World) (R : string) (n : nat)
  (Hbefore : before_status dev w = (inr tt, w1))
  (Hline : dev_reply dev (sent (trace w1) ++ [STATUS]) = Line R)
  (Hfloat : float_of_str R = None) :
  _communication_loop dev (S n) w =
  (inl ValueError, mkWorld (self w1) (trace w1 ++ [Write STATUS])).
Proof.
  cbn [_communication_loop]. unfold bind at 1.
  rewrite (cycle_from_status _ Hbefore). unfold bind at 1.
  rewrite (read_chiller_status_not_float dev w1 Hline Hfloat).
  reflexivity.
Qed.

(** No function of the loop catches what the port itself raises: such an
    exception on the first read exchange ends the cycle with it. *)
Lemma port_exception_leaves_read (w : World) (e : exn) :
  dev_reply dev (sent (trace w) ++ [IN_PV_00]) = Raise e ->
  _read_bath_temp dev w =
  (inl e, mkWorld (self w) (trace w ++ [Write IN_PV_00])).
Proof.
  intros H. unfold _read_bath_temp.
  rewrite (bind_inl _ _ _ (exchange_raise dev _ _ H)). reflexivity.
Qed.

End Alarm.

(** ** The setpoint attribute *)

Section Setpoint.

Context {B : Builtins}.
Variable dev : Device.

Lemma write_setp_sent (w : World) :
  _temp_setp_changed (self w) = true ->
  sent (trace (snd (_write_setp dev w))) =
  (sent (trace w) ++ [OUT_SP_00 (_temp_setp (self w))])%list.
Proof.
  intros Hc. unfold _write_setp. run. rewrite Hc. unfold exchange.
  destruct (dev_reply dev _); cbn; rewrite ?sent_app; cbn;
    rewrite ?app_nil_r; reflexivity.
Qed.

(** C8, as the code has it: [temp_setp] reads the setpoint attribute,
    which a write overwrites at once, so a read after a write returns the
    written value before any exchange; the write only sets the attribute
    and the pending flag, the next flush writes [OUT_SP_00_<value>] with
    that value, and a setpoint read that parses stores the instrument's
    value in the same attribute. *)
Theorem setpoint_write_is_read_back_at_once (w : World) (v : pyfloat) :
  let w' := call (write_temp_setp v) w in
  read_temp_setp (self w') = v /\
  _temp_setp_changed (self w') = true /\
  trace w' = trace w /\
  sent (trace (snd (_write_setp dev w'))) =
    (sent (trace w) ++ [OUT_SP_00 v])%list /\
  (forall R x,
     dev_reply dev (sent (trace w') ++ [IN_SP_00]) = Line R ->
     float_of_str R = Some x ->
     read_temp_setp (self (snd (_read_setp dev w'))) = x).
Proof.
  intros w'. repeat split.
  - apply (write_setp_sent w'). reflexivity.
  - intros R x HR Hx. rewrite (read_setp_run dev w' HR), Hx. reflexivity.
Qed.

End Setpoint.

(** ** The reference run *)

Section Reference.

Context {B : Builtins}.

Lemma reference_reply (h : list string) (c : string) :
  dev_reply Sim.reference (h ++ [c]) = dev_reply Sim.reference [c].
Proof.
  unfold Sim.reference, Sim.table. cbn [dev_reply]. unfold current.
  rewrite last_last. reflexivity.
Qed.

(** A cycle of the reference instrument started with no pending
    request. *)
Lemma reference_cycle
  (w0 : World) (b p s z : pyfloat)
  (Htoggle : _is_on_toggle (self w0) = false)
  (Hchanged : _temp_setp_changed (self w0) = false)
  (Hb : float_of_str "23.5" = Some b)
  (Hp : float_of_str "1.2" = Some p)
  (Hs : float_of_str "21.0" = Some s)
  (Hz : float_of_str "0" = Some z)
  (Hi : int_of_float z = inr 0) :
  fst (cycle Sim.reference w0) = inr tt /\
  published b p s (snd (cycle Sim.reference w0)).
Proof.
  unfold published, cycle, flush_block, read_block, bind.
  rewrite (write_is_on_idle _ _ Htoggle).
  rewrite (write_setp_idle _ _ Hchanged).
  rewrite (@read_bath_temp_run B Sim.reference _ "23.5")
    by (rewrite reference_reply; reflexivity).
  rewrite Hb.
  rewrite (@read_pressure_run B Sim.reference _ "1.2")
    by (rewrite reference_reply; reflexivity).
  rewrite Hp.
  rewrite (@read_setp_run B Sim.reference _ "21.0")
    by (rewrite reference_reply; reflexivity).
  rewrite Hs.
  rewrite (@read_chiller_status_run B Sim.reference _ "0" z 0)
    by (try rewrite reference_reply; solve [reflexivity | assumption]).
  rewrite (@stat_tail_line B Sim.reference _ "OK")
    by (rewrite reference_reply; reflexivity).
  rewrite (@read_is_on_run B Sim.reference _ "0" z 0)
    by (try rewrite reference_reply; solve [reflexivity | assumption]).
  cbn. repeat split; reflexivity.
Qed.

Lemma loop_once (dev : Device) (w : World) :
  fst (cycle dev w) = inr tt ->
  _communication_loop dev 1 w =
  (inr tt, mkWorld (self (snd (cycle dev w)))
                   (trace (snd (cycle dev w)) ++ [Sleep 1])).
Proof.
  cbn [_communication_loop]. unfold bind.
  destruct (cycle dev w) as [[e|[]] w1]; cbn; intros H;
    [discriminate H|reflexivity].
Qed.

(** C6: with the instrument that answers 0 to STATUS, 23.5 to IN_PV_00,
    1.2 to IN_PV_02, 21.0 to IN_SP_00, OK to STAT and 0 to IN_MODE_02, one
    cycle from the initial device state, and likewise the server after
    start-up and one iteration of its loop, publishes the bath temperature
    23.5, the pressure 1.2, the setpoint 21.0, the status text OK, [is_on]
    true and the state RUNNING. *)
Theorem reference_run_publishes_the_readings
  (b p s z : pyfloat)
  (Hprobe : int_of_str "0" = Some 0)
  (Hb : float_of_str "23.5" = Some b)
  (Hp : float_of_str "1.2" = Some p)
  (Hs : float_of_str "21.0" = Some s)
  (Hz : float_of_str "0" = Some z)
  (Hi : int_of_float z = inr 0) :
  (fst (cycle Sim.reference boot) = inr tt /\
   published b p s (snd (cycle Sim.reference boot))) /\
  (fst (server Sim.reference 1) = inr tt /\
   published b p s (snd (server Sim.reference 1))).
Proof.
  split.
  - apply (reference_cycle boot eq_refl eq_refl Hb Hp Hs Hz Hi).
  - unfold server.
    rewrite (@init_device_probe_int B Sim.reference "0" 0
               eq_refl eq_refl Hprobe).
    cbn [snd self comm_thread set_comm_thread Z.eqb].
    match goal with
    | |- context [_communication_loop _ 1 ?w] => set (w1 := w)
    end.
    destruct (reference_cycle w1 eq_refl eq_refl Hb Hp Hs Hz Hi)
      as [Hret Hpub].
    rewrite (loop_once _ _ Hret). split; [reflexivity|exact Hpub].
Qed.

End Reference.

(** ** Runs on the simulated instruments *)

Section Runs.

#[local] Existing Instance Sim.builtins.

(** The lines 23.5 and 1.2 are stored; the line abc changes nothing. *)
Lemma float_reading_last_good_value_run :
  read_bath_temp (self (snd (_read_bath_temp Sim.reference Sim.started))) = 23500
  /\ read_pressure (self (snd (_read_pressure Sim.reference Sim.started))) = 1200
  /\ self (snd (_read_bath_temp (Sim.answering IN_PV_00 "abc") Sim.started))
     = self Sim.started.
Proof.
  split; [|split].
  - apply (proj1 (float_reading_last_good_value Sim.reference Sim.started "23.5"));
      reflexivity.
  - apply (proj2 (float_reading_last_good_value Sim.reference Sim.started "1.2"));
      reflexivity.
  - apply (proj1 (float_reading_last_good_value
                    (Sim.answering IN_PV_00 "abc") Sim.started "abc"));
      reflexivity.
Defined.

(** From FAULT: mode 0 gives RUNNING, modes 1 and 2 leave FAULT. *)
Lemma mode_read_transitions_run :
  let w := mkWorld (set_state FAULT init_self) [] in
  state (self (snd (_read_is_on Sim.reference w))) = RUNNING /\
  read_is_on (self (snd (_read_is_on Sim.reference w))) = true /\
  state (self (snd (_read_is_on (Sim.answering IN_MODE_02 "1") w))) = FAULT /\
  state (self (snd (_read_is_on (Sim.answering IN_MODE_02 "2") w))) = FAULT.
Proof.
  intros w.
  pose proof (@mode_read_transitions Sim.builtins Sim.reference w "0" 0 0
                eq_refl eq_refl eq_refl) as (H0 & _ & _).
  pose proof (@mode_read_transitions Sim.builtins (Sim.answering IN_MODE_02 "1") w
                "1" 1000 1 eq_refl eq_refl eq_refl) as (_ & H1 & _).
  pose proof (@mode_read_transitions Sim.builtins (Sim.answering IN_MODE_02 "2") w
                "2" 2000 2 eq_refl eq_refl eq_refl) as (_ & _ & H2).
  destruct (H0 eq_refl) as [Hon Hst].
  destruct (H1 eq_refl) as [_ Hst1].
  destruct H2 as [_ Hst2]; [discriminate|discriminate|].
  repeat split; assumption.
Defined.

(** An absent port, and a probe answered abc, both end in FAULT. *)
Lemma startup_failure_is_fault_without_worker_run :
  state (self (snd (server Sim.absent 3))) = FAULT /\
  trace (snd (server Sim.absent 3))
  = [ErrorStream "init_device: SerialException"] /\
  state (self (snd (server (Sim.answering STATUS "abc") 3))) = FAULT /\
  comm_thread (self (snd (server (Sim.answering STATUS "abc") 3))) = false.
Proof.
  destruct (@startup_failure_is_fault_without_worker Sim.builtins Sim.absent 3)
    as (_ & Hs & _ & _ & Hrun).
  { left. exists SerialException. reflexivity. }
  destruct (@startup_failure_is_fault_without_worker Sim.builtins
              (Sim.answering STATUS "abc") 3)
    as (_ & Hs' & Hc' & _ & Hrun').
  { right. split; [reflexivity|]. exists "abc". split; reflexivity. }
  rewrite Hrun, Hrun'. cbn [snd].
  split; [exact Hs|]. split; [reflexivity|]. split; [exact Hs'|exact Hc'].
Defined.

(** A probe answered 5 leaves INIT and starts the thread. *)
Lemma startup_other_code_stays_init_and_polls_run :
  let w := snd (init_device (Sim.answering STATUS "5") boot) in
  state (self w) = INIT /\ comm_thread (self w) = true /\
  server (Sim.answering STATUS "5") 0 = (inr tt, w).
Proof.
  intros w.
  destruct (@startup_other_code_stays_init_and_polls Sim.builtins
              (Sim.answering STATUS "5") "5" 5 0 eq_refl eq_refl eq_refl)
    as (_ & Hs & Hc & _ & Hrun); [discriminate|discriminate|].
  split; [exact Hs|]. split; [exact Hc|exact Hrun].
Defined.

Ltac other_command :=
  match goal with
  | H1 : ?c = current ?h, H2 : current ?h = ?d |- _ =>
      rewrite <- H1 in H2; vm_compute in H2; discriminate H2
  end.

(** The reference instrument with an alarm on some STATUS is polite. *)
Lemma nth_status_polite (k : nat) : polite (Sim.nth_status k "-1").
Proof.
  intros h. unfold Sim.nth_status. cbn [dev_reply].
  destruct (String.eqb (current h) STATUS && Nat.eqb (Sim.times STATUS h) k)
    eqn:E.
  - exists "-1". split; [reflexivity|]. split.
    + intros _. exists (-1000), (-1). split; reflexivity.
    + intros _ ? ? _ He. discriminate He.
  - unfold Sim.reference, Sim.table. cbn [dev_reply find fst snd].
    repeat
      match goal with
      | |- context [String.eqb ?c (current h)] =>
          destruct (String.eqb_spec c (current h))
      end;
      (eexists; split; [reflexivity|]; split;
       [ intros Hc;
         first [ other_command
               | exists 0, 0; split; reflexivity
               | exfalso; congruence ]
       | intros _ ? ? _ He; discriminate He ]).
Qed.

(** An alarm in the first cycle: FAULT is set, the loop goes on, and a
    later STATUS 0 leaves FAULT. *)
Lemma status_alarm_sets_fault_and_zero_keeps_it_run :
  let w := snd (before_status Sim.alarm_once Sim.started) in
  state (self (snd (_read_chiller_status Sim.alarm_once w))) = FAULT /\
  fst (_read_chiller_status Sim.alarm_once w) = inr tt /\
  fst (_communication_loop Sim.alarm_once 4 Sim.started) = inr tt /\
  sent (trace (snd (_communication_loop Sim.alarm_once 4 Sim.started))) =
    (STATUS :: rounds 4)%list /\
  let w' := mkWorld (set_state FAULT (self w)) (trace w) in
  state (self (snd (_read_chiller_status Sim.reference w'))) = FAULT.
Proof.
  intros w.
  pose proof (@status_alarm_sets_fault_and_zero_keeps_it Sim.builtins
                Sim.alarm_once w "-1" (-1000) (-1)
                eq_refl eq_refl eq_refl) as (Hfault & _ & Hgo).
  destruct (Hgo (nth_status_polite 2)) as (Hret & _ & Hloop & Hsent).
  split; [exact (Hfault eq_refl)|]. split; [exact Hret|].
  split; [exact (Hloop 4%nat Sim.started)|].
  split; [exact (Hsent 3%nat Sim.started)|].
  intros w'.
  pose proof (@status_alarm_sets_fault_and_zero_keeps_it Sim.builtins
                Sim.reference w' "0" 0 0
                eq_refl eq_refl eq_refl) as (_ & Hzero & _).
  exact (Hzero eq_refl).
Defined.

(** STATUS answered abc in the first cycle ends the thread. *)
Lemma status_decode_error_ends_worker_run :
  let dev := Sim.nth_status 2 "abc" in
  let w1 := snd (before_status dev Sim.started) in
  _communication_loop dev 3 Sim.started =
  (inl ValueError, mkWorld (self w1) (trace w1 ++ [Write STATUS])) /\
  read_chiller_status (self w1) = read_chiller_status (self Sim.started).
Proof.
  intros dev w1. split; [|reflexivity].
  apply (@status_decode_error_ends_worker Sim.builtins dev Sim.started w1
           "abc" 2); reflexivity.
Defined.

(** A pending setpoint 25.0 is written before the six reads. *)
Lemma cycle_flushes_then_reads_in_order_run :
  let w := call (write_temp_setp (25000 : @pyfloat Sim.builtins)) Sim.started in
  exists evs,
    trace (snd (cycle Sim.reference w)) = (trace w ++ evs)%list /\
    sent evs = [OUT_SP_00 (25000 : @pyfloat Sim.builtins);
                IN_PV_00; IN_PV_02; IN_SP_00; STATUS; STAT; IN_MODE_02] /\
    _temp_setp_changed (self (snd (cycle Sim.reference w))) = false.
Proof.
  intros w.
  destruct (@cycle_flushes_then_reads_in_order Sim.builtins Sim.reference w)
    as (evs & Ht & _ & Hf & Hflags).
  destruct (Hflags eq_refl) as (Hc & _).
  exists evs. split; [exact Ht|]. split; [exact (Hf eq_refl)|exact Hc].
Defined.



(** The reference run on the simulated interpreter. *)
Lemma reference_run_publishes_the_readings_run :
  published (B := Sim.builtins) 23500 1200 21000 (snd (server Sim.reference 1)).
Proof.
  exact (proj2 (proj2 (@reference_run_publishes_the_readings Sim.builtins
                         23500 1200 21000 0
                         eq_refl eq_refl eq_refl eq_refl eq_refl eq_refl))).
Defined.

(** Writing 25.0 reads back 25.0; the next IN_SP_00 restores 21.0. *)
Lemma setpoint_write_is_read_back_at_once_run :
  let w' := call (write_temp_setp (25000 : @pyfloat Sim.builtins)) Sim.started in
  read_temp_setp (self w') = 25000 /\
  read_temp_setp (self (snd (_read_setp Sim.reference w'))) = 21000.
Proof.
  intros w'.
  pose proof (@setpoint_write_is_read_back_at_once Sim.builtins Sim.reference
                Sim.started 25000) as (Hr & _ & _ & _ & Hread).
  split; [exact Hr|].
  exact (Hread "21.0" 21000 eq_refl eq_refl).
Defined.

(** C8 as stated fails: after a cycle in which IN_SP_00 answered 21.0,
    writing 25.0 makes the very next read of [temp_setp] return 25.0,
    with no exchange in between. *)
Lemma setpoint_read_is_not_last_device_value :
  let w := snd (server Sim.reference 1) in
  let w' := call (write_temp_setp (25000 : @pyfloat Sim.builtins)) w in
  read_temp_setp (self w) = 21000 /\
  trace w' = trace w /\
  read_temp_setp (self w') = 25000 /\
  read_temp_setp (self w') <> read_temp_setp (self w).
Proof.
  intros w w'. repeat split. intros H. discriminate H.
Qed.

(** A port that raises on IN_PV_00 ends the thread in its first cycle. *)
Example port_exception_ends_worker_run :
  fst (server (Sim.failing IN_PV_00 SerialException) 2) = inl SerialException.
Proof. reflexivity. Qed.

(** A mode line that is not a number is logged and the loop goes on. *)
Example mode_decode_error_is_logged_run :
  fst (server (Sim.answering IN_MODE_02 "abc") 2) = inr tt /\
  In (ErrorStream "Invalid is_on response: abc")
     (trace (snd (server (Sim.answering IN_MODE_02 "abc") 2))).
Proof. split; [reflexivity|]. vm_compute. tauto. Qed.

End Runs.

(** ** Each read step on its own *)

Section ReadSteps.

Context {B : Builtins}.
Variable dev : Device.

(** [_read_setp]: a setpoint line that parses as a float is stored as
    that float; a line that does not parse is reported on the error stream
    with its text, and the object stays as it was. *)
Theorem setpoint_reading_last_good_value (w : World) (R : string)
  (Hline : dev_reply dev (sent (trace w) ++ [IN_SP_00]) = Line R) :
  let w' := snd (_read_setp dev w) in
  fst (_read_setp dev w) = inr tt /\
  (forall x, float_of_str R = Some x ->
     read_temp_setp (self w') = x /\
     trace w' = (trace w ++ [Write IN_SP_00])%list) /\
  (float_of_str R = None ->
     self w' = self w /\
     trace w' =
       (trace w ++ [Write IN_SP_00;
          ErrorStream ("Invalid setpoint read response: " ++ R)])%list).
Proof.
  intros w'. subst w'. rewrite (read_setp_run dev w Hline).
  destruct (float_of_str R) as [x|]; cbn.
  - split; [reflexivity|]. split; [|discriminate].
    intros y Hy. injection Hy as <-. split; reflexivity.
  - split; [reflexivity|]. split; [discriminate|].
    intros _. split; reflexivity.
Qed.

(** [_read_is_on]: a mode line that is not a float, or whose float
    raises a [ValueError] when converted to an integer, is reported and
    leaves the object as it was; a conversion that raises anything else
    (an [OverflowError] for an infinity) leaves the function with that
    exception, the object unchanged as well. *)
Theorem mode_read_errors (w : World) (R : string)
  (Hline : dev_reply dev (sent (trace w) ++ [IN_MODE_02]) = Line R) :
  let res := _read_is_on dev w in
  (float_of_str R = None ->
     fst res = inr tt /\ self (snd res) = self w /\
     trace (snd res) =
       (trace w ++ [Write IN_MODE_02;
          ErrorStream ("Invalid is_on response: " ++ R)])%list) /\
  (forall x e, float_of_str R = Some x -> int_of_float x = inl e ->
     self (snd res) = self w /\
     fst res = (if is_ValueError e then inr tt else inl e) /\
     trace (snd res) =
       (trace w ++ Write IN_MODE_02 ::
          (if is_ValueError e
           then [ErrorStream ("Invalid is_on response: " ++ R)]
           else []))%list).
Proof.
  intros res. subst res. unfold _read_is_on.
  rewrite (bind_inr _ _ _ (exchange_line dev _ _ Hline)).
  split.
  - intros Hx. run. rewrite Hx. cbn. rewrite <- app_assoc.
    repeat split; reflexivity.
  - intros x e Hx He. run. rewrite Hx. cbn. rewrite He. cbn.
    destruct (is_ValueError e); cbn; rewrite <- ?app_assoc;
      repeat split; reflexivity.
Qed.

(** [_read_chiller_status] with a STATUS answer that converts to the
    integer [r] and a STAT answer [T]: the status text becomes [T] as it
    is (the empty line included), the state becomes FAULT when [r] is -1
    and is otherwise left alone, nothing else changes, and the alarm is
    reported exactly when [r] is -1. *)
Theorem status_read_outcome
  (w : World) (R T : string) (x : pyfloat) (r : Z)
  (Hline : dev_reply dev (sent (trace w) ++ [STATUS]) = Line R)
  (Hfloat : float_of_str R = Some x)
  (Hint : int_of_float x = inr r)
  (Hstat : dev_reply dev (sent (trace w) ++ [STATUS; STAT]) = Line T) :
  let w' := snd (_read_chiller_status dev w) in
  fst (_read_chiller_status dev w) = inr tt /\
  self w' =
    set_chiller_status T
      (if r =? -1 then set_state FAULT (self w) else self w) /\
  trace w' =
    (trace w ++ Write STATUS ::
       (if r =? -1 then [ErrorStream "Chiller is in alarm state"] else [])
       ++ [Write STAT])%list.
Proof.
  intros w'. subst w'.
  rewrite (read_chiller_status_run dev w Hline Hfloat Hint).
  assert (Hs : dev_reply dev
                 (sent (trace (after_status_code r w)) ++ [STAT]) = Line T).
  { unfold after_status_code.
    destruct (r =? 0); [|destruct (r =? -1)]; cbn [trace];
      rewrite sent_app; cbn [sent]; rewrite <- app_assoc; exact Hstat. }
  rewrite (stat_tail_line dev _ Hs). cbn [fst snd self trace].
  unfold after_status_code.
  destruct (Z.eqb_spec r 0) as [->|H0]; cbn.
  - repeat split. rewrite <- app_assoc. reflexivity.
  - destruct (r =? -1); cbn; repeat split; rewrite <- app_assoc; reflexivity.
Qed.

(** [_read_chiller_status] with a STATUS answer whose float cannot be
    converted to an integer: the exception of the conversion leaves the
    function, whatever its class, before STAT is written and with the
    object unchanged. *)
Theorem status_read_conversion_error
  (w : World) (R : string) (x : pyfloat) (e : exn)
  (Hline : dev_reply dev (sent (trace w) ++ [STATUS]) = Line R)
  (Hfloat : float_of_str R = Some x)
  (Hint : int_of_float x = inl e) :
  _read_chiller_status dev w =
  (inl e, mkWorld (self w) (trace w ++ [Write STATUS])).
Proof.
  unfold _read_chiller_status.
  rewrite (bind_inr _ _ _ (exchange_line dev _ _ Hline)).
  run. rewrite Hfloat. cbn. rewrite Hint. reflexivity.
Qed.

(** However the instrument answers, and however the step ends, each read
    step changes only its own attributes: the bath temperature, the
    pressure, the setpoint, the state and status text, and [is_on] and
    the state. *)
Theorem read_steps_frame (w : World) :
  (let s' := self (snd (_read_bath_temp dev w)) in
   s' = set_bath_temp (_bath_temp s') (self w)) /\
  (let s' := self (snd (_read_pressure dev w)) in
   s' = set_pressure (_pressure s') (self w)) /\
  (let s' := self (snd (_read_setp dev w)) in
   s' = set_temp_setp (_temp_setp s') (self w)) /\
  (let s' := self (snd (_read_chiller_status dev w)) in
   s' = set_chiller_status (_chiller_status s')
          (set_state (state s') (self w))) /\
  (let s' := self (snd (_read_is_on dev w)) in
   s' = set_is_on (_is_on s') (set_state (state s') (self w))).
Proof.
  repeat split; intros s'; subst s';
    [ unfold _read_bath_temp | unfold _read_pressure | unfold _read_setp
    | unfold _read_chiller_status | unfold _read_is_on ];
    paths; destruct (self w); reflexivity.
Qed.

End ReadSteps.

(** ** Start-up in general *)

Section Startup.

Context {B : Builtins}.
Variable dev : Device.

Lemma init_device_probe_raises (e : exn) :
  dev_open dev = None ->
  dev_reply dev [STATUS] = Raise e ->
  init_device dev boot =
  (inr tt,
   mkWorld (set_state FAULT init_self)
           [Write STATUS; ErrorStream ("init_device: " ++ str_of_exn e)]).
Proof.
  intros Ho H. unfold init_device, open_port. run. rewrite Ho.
  unfold exchange. cbn. rewrite H. reflexivity.
Qed.

(** [init_device] with a probe answer that is an integer: the thread is
    started whatever the code; code 0 gives the state ON, and code -1
    gives FAULT with the alarm reported, the thread started all the
    same. *)
Theorem startup_probe_codes (R : string) (r : Z)
  (Hopen : dev_open dev = None)
  (Hline : dev_reply dev [STATUS] = Line R)
  (Hint : int_of_str R = Some r) :
  let w := snd (init_device dev boot) in
  comm_thread (self w) = true /\
  In ThreadStart (trace w) /\
  (r = 0 -> state (self w) = ON) /\
  (r = -1 ->
   state (self w) = FAULT /\
   In (ErrorStream "Chiller is in alarm state") (trace w)).
Proof.
  intros w; subst w. rewrite (init_device_probe_int dev Hopen Hline Hint).
  cbn [snd self trace]. split; [reflexivity|]. split.
  - apply in_or_app. right. apply in_or_app. right. left. reflexivity.
  - split; intros ->; cbn; [reflexivity|].
    split; [reflexivity|]. right. right. left. reflexivity.
Qed.

(** [init_device] never raises, whatever the port and the instrument do;
    it leaves every reading at its default with no request pending; the
    thread is started exactly when the port opened and the probe answer
    was an integer, and in every other case the state is FAULT. *)
Theorem startup_always_returns :
  let w := snd (init_device dev boot) in
  fst (init_device dev boot) = inr tt /\
  set_comm_thread false (set_state INIT (self w)) = init_self /\
  (comm_thread (self w) = true <->
   dev_open dev = None /\
   exists R r, dev_reply dev [STATUS] = Line R /\ int_of_str R = Some r) /\
  (comm_thread (self w) = false -> state (self w) = FAULT).
Proof.
  intros w; subst w.
  destruct (dev_open dev) as [e|] eqn:Ho.
  { rewrite (init_device_open_fails dev Ho). cbn.
    repeat split; try reflexivity; try discriminate.
    intros [H _]. discriminate H. }
  destruct (dev_reply dev [STATUS]) as [R|e] eqn:HR.
  2:{ rewrite (init_device_probe_raises Ho HR). cbn.
      repeat split; try reflexivity; try discriminate.
      intros [_ (R & r & H & _)]. discriminate H. }
  destruct (int_of_str R) as [r|] eqn:Hi.
  - rewrite (init_device_probe_int dev Ho HR Hi). cbn [fst snd self].
    split; [reflexivity|]. split.
    { destruct (r =? 0); [|destruct (r =? -1)]; reflexivity. }
    split.
    + split; [intros _|reflexivity]. split; [reflexivity|].
      exists R, r. split; [reflexivity|exact Hi].
    + intros H. discriminate H.
  - rewrite (init_device_probe_not_int dev Ho HR Hi). cbn.
    repeat split; try reflexivity; try discriminate.
    intros [_ (R' & r & H & Hr)]. injection H as <-. congruence.
Qed.

End Startup.

(** ** The flushes in general *)

Section Flushes.

Context {B : Builtins}.
Variable dev : Device.

(** The flushes do not look at what the instrument answers: whatever the
    line, the setpoint flush only clears its flag and the power flush only
    sets the state and clears its flag; when the exchange raises, the
    exception leaves the function with the object unchanged, the request
    still pending. *)
Theorem flushes_ignore_the_answer (w : World) :
  (_temp_setp_changed (self w) = true ->
   (forall R,
      dev_reply dev (sent (trace w) ++ [OUT_SP_00 (_temp_setp (self w))])
      = Line R ->
      fst (_write_setp dev w) = inr tt /\
      self (snd (_write_setp dev w)) = set_temp_setp_changed false (self w))
   /\
   (forall e,
      dev_reply dev (sent (trace w) ++ [OUT_SP_00 (_temp_setp (self w))])
      = Raise e ->
      fst (_write_setp dev w) = inl e /\
      self (snd (_write_setp dev w)) = self w)) /\
  (_is_on_toggle (self w) = true ->
   let cmd := if _is_on (self w) then START else STOP in
   (forall R,
      dev_reply dev (sent (trace w) ++ [cmd]) = Line R ->
      fst (_write_is_on dev w) = inr tt /\
      self (snd (_write_is_on dev w)) =
        set_is_on_toggle false
          (set_state (if _is_on (self w) then RUNNING else ON) (self w)))
   /\
   (forall e,
      dev_reply dev (sent (trace w) ++ [cmd]) = Raise e ->
      fst (_write_is_on dev w) = inl e /\
      self (snd (_write_is_on dev w)) = self w /\
      pushed (trace (snd (_write_is_on dev w))) = pushed (trace w))).
Proof.
  split; intros Hp.
  - split.
    + intros R HR. rewrite (write_setp_run dev w Hp HR). split; reflexivity.
    + intros e He. rewrite (write_setp_raise dev w Hp He). split; reflexivity.
  - intros cmd. split.
    + intros R HR. rewrite (write_is_on_run dev w Hp HR). split; reflexivity.
    + intros e He. rewrite (write_is_on_raise dev w Hp He). cbn.
      repeat split. rewrite pushed_app. cbn. apply app_nil_r.
Qed.

End Flushes.

(** ** The loop over several cycles *)

Section Loop.

Context {B : Builtins}.
Variable dev : Device.

(** Over the first [n + 1] iterations the loop writes the requests
    pending at the start once, in the first iteration, and then nothing
    but the six read commands, once per iteration: a prefix of that list
    if an exception ends the thread, all of it if the thread is still
    running, and then no request is pending. *)
Theorem loop_flushes_once_then_only_reads (n : nat) (w : World) :
  exists evs,
    trace (snd (_communication_loop dev (S n) w)) = (trace w ++ evs)%list /\
    (exists rest, (flush_cmds (self w) ++ rounds (S n))%list
                  = (sent evs ++ rest)%list) /\
    (fst (_communication_loop dev (S n) w) = inr tt ->
     sent evs = (flush_cmds (self w) ++ rounds (S n))%list /\
     _is_on_toggle (self (snd (_communication_loop dev (S n) w))) = false /\
     _temp_setp_changed (self (snd (_communication_loop dev (S n) w)))
     = false).
Proof.
  destruct (loop_emits dev n w) as (evs & Ht & Hp & Hf).
  exists evs. split; [exact Ht|]. split; [exact Hp|].
  intros Hret. split; [exact (Hf Hret)|].
  assert (Hidle : pending (snd (_communication_loop dev (S n) w))
                  = (false, false)).
  { revert Hret. cbn [_communication_loop]. unfold bind.
    pose proof (cycle_returns_idle dev w) as Hc.
    destruct (cycle dev w) as [[e|[]] w1]; cbn [fst snd] in *;
      [discriminate|]. intros _.
    cbn. apply loop_stays_idle. apply Hc. reflexivity. }
  unfold pending in Hidle. injection Hidle as H1 H2. split; assumption.
Qed.

(** *** The states polling can reach *)

Lemma polled_refl (s : DevState) : polled s s.
Proof. left. reflexivity. Qed.

Lemma polled_trans (a b c : DevState) : polled a b -> polled b c -> polled a c.
Proof.
  unfold polled. intros [-> | [-> | ->]] [-> | [-> | ->]]; auto.
Qed.

Lemma polls_bind (m k : M unit) :
  polls m -> polls k -> polls (bind m (fun _ => k)).
Proof.
  intros Hm Hk w. unfold bind. pose proof (Hm w) as H.
  destruct (m w) as [[e|[]] w1]; cbn [snd] in *; [exact H|].
  exact (polled_trans H (Hk w1)).
Qed.

Ltac polls_leaf := unfold polled; cbn; auto.

Lemma polls_write_setp : polls (_write_setp dev).
Proof. intros w. unfold _write_setp. paths; polls_leaf. Qed.

Lemma polls_read_bath_temp : polls (_read_bath_temp dev).
Proof. intros w. unfold _read_bath_temp. paths; polls_leaf. Qed.

Lemma polls_read_pressure : polls (_read_pressure dev).
Proof. intros w. unfold _read_pressure. paths; polls_leaf. Qed.

Lemma polls_read_setp : polls (_read_setp dev).
Proof. intros w. unfold _read_setp. paths; polls_leaf. Qed.

Lemma polls_read_chiller_status : polls (_read_chiller_status dev).
Proof. intros w. unfold _read_chiller_status. paths; polls_leaf. Qed.

Lemma polls_read_is_on : polls (_read_is_on dev).
Proof. intros w. unfold _read_is_on. paths; polls_leaf. Qed.

Lemma polls_cycle (w : World) :
  _is_on_toggle (self w) = false ->
  polled (state (self w)) (state (self (snd (cycle dev w)))).
Proof.
  intros Ht.
  assert (Hrest : polls
            (bind (_write_setp dev) (fun _ =>
               bind (read_block dev) (fun _ => _read_is_on dev)))).
  { unfold read_block.
    repeat apply polls_bind;
      auto using polls_write_setp, polls_read_bath_temp, polls_read_pressure,
        polls_read_setp, polls_read_chiller_status, polls_read_is_on. }
  unfold cycle, flush_block. rewrite bind_assoc.
  unfold bind at 1. rewrite (write_is_on_idle dev w Ht). apply Hrest.
Qed.

Lemma toggle_stays_clear (w : World) :
  _is_on_toggle (self w) = false ->
  _is_on_toggle (self (snd (cycle dev w))) = false.
Proof.
  intros Ht. pose proof (cycle_pending dev w) as Hp. unfold pending in Hp.
  injection Hp as Hp _. rewrite Hp. unfold flush_block, bind.
  rewrite (write_is_on_idle dev w Ht).
  unfold _write_setp. paths; assumption.
Qed.

(** Without a power request, polling never reports ON or INIT on its
    own: after any number of iterations, however the thread ends, the
    state is the one it started from, FAULT or RUNNING. *)
Theorem polling_reaches_only_fault_or_running (n : nat) (w : World)
  (Hidle : _is_on_toggle (self w) = false) :
  polled (state (self w))
         (state (self (snd (_communication_loop dev n w)))).
Proof.
  revert w Hidle. induction n as [|n IH]; intros w Ht; [apply polled_refl|].
  cbn [_communication_loop]. unfold bind.
  pose proof (polls_cycle w Ht) as Hc.
  pose proof (toggle_stays_clear w Ht) as Ht'.
  destruct (cycle dev w) as [[e|[]] w1]; cbn [snd] in *; [exact Hc|].
  cbn. apply (polled_trans Hc).
  apply (IH (mkWorld (self w1) (trace w1 ++ [Sleep 1]))). exact Ht'.
Qed.

(** A cycle in which STATUS reports the alarm and IN_MODE_02 then
    reports running ends in RUNNING, not FAULT: the alarm is reported on
    the error stream, and the mode read that follows it in the same cycle
    overwrites the state. *)
Theorem alarm_is_overwritten_by_running_mode
  (w0 w : World) (R T Mo : string) (x y : pyfloat)
  (Hbefore : before_status dev w0 = (inr tt, w))
  (Hstatus : dev_reply dev (sent (trace w) ++ [STATUS]) = Line R)
  (Hx : float_of_str R = Some x)
  (Halarm : int_of_float x = inr (-1))
  (Hstat : dev_reply dev (sent (trace w) ++ [STATUS; STAT]) = Line T)
  (Hmode : dev_reply dev (sent (trace w) ++ [STATUS; STAT; IN_MODE_02])
           = Line Mo)
  (Hy : float_of_str Mo = Some y)
  (Hrun : int_of_float y = inr 0) :
  fst (cycle dev w0) = inr tt /\
  state (self (snd (cycle dev w0))) = RUNNING /\
  read_is_on (self (snd (cycle dev w0))) = true /\
  In (ErrorStream "Chiller is in alarm state") (trace (snd (cycle dev w0))).
Proof.
  rewrite (cycle_from_status dev _ Hbefore). unfold bind.
  rewrite (read_chiller_status_run dev w Hstatus Hx Halarm).
  unfold after_status_code.
  change (-1 =? 0) with false. change (-1 =? -1) with true. cbv iota.
  rewrite (@stat_tail_line B dev _ T)
    by (cbn [trace]; rewrite sent_app; cbn [sent];
        rewrite <- app_assoc; exact Hstat).
  rewrite (@read_is_on_run B dev _ Mo y 0)
    by (try (cbn [trace]; rewrite !sent_app; cbn [sent];
             rewrite <- !app_assoc; exact Hmode); assumption).
  cbn. repeat split.
  rewrite !in_app_iff. cbn. tauto.
Qed.

End Loop.

(** ** Why the thread can end *)

Section Causes.

Context {B : Builtins}.
Variable dev : Device.

Lemma ends_soundly_bind (m k : M unit) :
  ends_soundly dev m -> ends_soundly dev k ->
  ends_soundly dev (bind m (fun _ => k)).
Proof.
  intros Hm Hk w. unfold bind. destruct (Hm w) as [(evs1 & Ht1) Hf1].
  destruct (m w) as [[e'|[]] w1]; cbn [fst snd] in *.
  - split; [exists evs1; exact Ht1|exact Hf1].
  - destruct (Hk w1) as [(evs2 & Ht2) Hf2]. split.
    + exists (evs1 ++ evs2)%list. rewrite Ht2, Ht1, app_assoc. reflexivity.
    + intros e He. destruct (Hf2 e He) as (t & c & Htr & (evs & Hev) & Hc).
      exists t, c. split; [exact Htr|]. split; [|exact Hc].
      exists (evs1 ++ evs)%list. rewrite Hev, Ht1, app_assoc. reflexivity.
Qed.

Ltac extends_leaf :=
  first [ exists []; rewrite app_nil_r; reflexivity
        | eexists; rewrite <- ?app_assoc; reflexivity ].

Ltac cause_leaf :=
  first
    [ left; assumption
    | right; left; split; [reflexivity|]; eexists; split; [eassumption|];
      first [ left; split; [assumption|reflexivity]
            | right; eexists; split; eassumption ]
    | right; right; split; [reflexivity|]; do 2 eexists;
      repeat split; eassumption ].

Ltac sound_leaf :=
  split;
  [ extends_leaf
  | intros ? Hfail;
    first [ discriminate Hfail
          | injection Hfail as <-;
            do 2 eexists; split; [reflexivity|]; split; [extends_leaf|];
            cause_leaf ] ].

Lemma write_is_on_sound : ends_soundly dev (_write_is_on dev).
Proof. intros w. unfold _write_is_on. paths; sound_leaf. Qed.

Lemma write_setp_sound : ends_soundly dev (_write_setp dev).
Proof. intros w. unfold _write_setp. paths; sound_leaf. Qed.

Lemma read_bath_temp_sound : ends_soundly dev (_read_bath_temp dev).
Proof. intros w. unfold _read_bath_temp. paths; sound_leaf. Qed.

Lemma read_pressure_sound : ends_soundly dev (_read_pressure dev).
Proof. intros w. unfold _read_pressure. paths; sound_leaf. Qed.

Lemma read_setp_sound : ends_soundly dev (_read_setp dev).
Proof. intros w. unfold _read_setp. paths; sound_leaf. Qed.

Lemma read_chiller_status_sound :
  ends_soundly dev (_read_chiller_status dev).
Proof. intros w. unfold _read_chiller_status. paths; sound_leaf. Qed.

Lemma read_is_on_sound : ends_soundly dev (_read_is_on dev).
Proof. intros w. unfold _read_is_on. paths; sound_leaf. Qed.

Lemma cycle_sound : ends_soundly dev (cycle dev).
Proof.
  unfold cycle, flush_block, read_block.
  repeat apply ends_soundly_bind;
    auto using write_is_on_sound, write_setp_sound, read_bath_temp_sound,
      read_pressure_sound, read_setp_sound, read_chiller_status_sound,
      read_is_on_sound.
Qed.

Lemma sleep_sound (n : nat) : ends_soundly dev (emit (Sleep n)).
Proof.
  intros w. split; [exists [Sleep n]; reflexivity|].
  intros e H. discriminate H.
Qed.

Lemma loop_sound (n : nat) : ends_soundly dev (_communication_loop dev n).
Proof.
  induction n as [|n IH].
  - intros w. split; [exists []; cbn; rewrite app_nil_r; reflexivity|].
    intros e H. discriminate H.
  - cbn [_communication_loop].
    apply ends_soundly_bind; [apply cycle_sound|].
    apply ends_soundly_bind; [apply sleep_sound|exact IH].
Qed.

(** When the communication thread ends with an exception, the last
    thing it did was to write a command, and the answer to that very
    write is the cause: the port raised; or the command was STATUS and
    the answer did not convert to an integer; or it was IN_MODE_02 and the
    conversion raised something other than a [ValueError].  No answer
    line to IN_PV_00, IN_PV_02, IN_SP_00, STAT, START, STOP or OUT_SP_00
    ends the thread. *)
Theorem loop_ends_only_for_a_cause (n : nat) (w : World) (e : exn)
  (Hend : fst (_communication_loop dev n w) = inl e) :
  ended_by dev w (snd (_communication_loop dev n w)) e.
Proof. exact (proj2 (loop_sound n w) e Hend). Qed.

(** Setpoint requests share one slot as well, and the two kinds of
    request do not disturb each other: after a setpoint write, a power
    write and a second setpoint write, a cycle that completes has written
    the power command, then OUT_SP_00 with the second value only, then
    the six reads. *)
Theorem requests_of_both_kinds_are_flushed_together
  (w : World) (v1 v2 : pyfloat) (b : bool) :
  let w1 := call (write_temp_setp v2)
              (call (write_is_on b) (call (write_temp_setp v1) w)) in
  fst (cycle dev w1) = inr tt ->
  exists evs,
    trace (snd (cycle dev w1)) = (trace w ++ evs)%list /\
    sent evs =
      ((if b then START else STOP) :: OUT_SP_00 v2 :: read_cmds)%list.
Proof.
  intros w1 Hret.
  destruct (cycle_emits dev w1) as (evs & Ht & _ & Hf).
  exists evs. split; [exact Ht|]. rewrite (Hf Hret). reflexivity.
Qed.

End Causes.

(** ** More runs on the simulated instruments *)

Section MoreRuns.

(** The setpoint line 21.0 is stored; the line abc changes nothing. *)
Lemma setpoint_reading_last_good_value_run :
  read_temp_setp
    (self (snd (_read_setp (B := Sim.builtins) Sim.reference Sim.started)))
  = 21000 /\
  self (snd (_read_setp (B := Sim.builtins)
               (Sim.answering IN_SP_00 "abc") Sim.started))
  = self Sim.started.
Proof.
  pose proof (@setpoint_reading_last_good_value Sim.builtins Sim.reference
                Sim.started "21.0" eq_refl) as (_ & Hok & _).
  pose proof (@setpoint_reading_last_good_value Sim.builtins
                (Sim.answering IN_SP_00 "abc") Sim.started "abc" eq_refl)
    as (_ & _ & Hbad).
  split; [exact (proj1 (Hok 21000 eq_refl))|exact (proj1 (Hbad eq_refl))].
Defined.

(** The mode lines abc and nan are reported and the read returns; the
    mode line inf raises [OverflowError] out of the read. *)
Lemma mode_read_errors_run :
  let w := @boot Special.builtins in
  fst (_read_is_on (Sim.answering IN_MODE_02 "abc") w) = inr tt /\
  fst (_read_is_on (Sim.answering IN_MODE_02 "nan") w) = inr tt /\
  fst (_read_is_on (Sim.answering IN_MODE_02 "inf") w) = inl OverflowError /\
  self (snd (_read_is_on (Sim.answering IN_MODE_02 "inf") w)) = self w.
Proof.
  intros w.
  pose proof (@mode_read_errors Special.builtins
                (Sim.answering IN_MODE_02 "abc") w "abc" eq_refl)
    as (Habc & _).
  pose proof (@mode_read_errors Special.builtins
                (Sim.answering IN_MODE_02 "nan") w "nan" eq_refl)
    as (_ & Hnan).
  pose proof (@mode_read_errors Special.builtins
                (Sim.answering IN_MODE_02 "inf") w "inf" eq_refl)
    as (_ & Hinf).
  destruct (Habc eq_refl) as (H1 & _ & _).
  destruct (Hnan Special.NaN ValueError eq_refl eq_refl) as (_ & H2 & _).
  destruct (Hinf Special.Infinity OverflowError eq_refl eq_refl)
    as (H4 & H3 & _).
  repeat split; assumption.
Defined.

(** A status read answered 0 and OK, and one answered -1 and OK. *)
Lemma status_read_outcome_run :
  let w := snd (before_status (B := Sim.builtins) Sim.reference Sim.started) in
  self (snd (_read_chiller_status Sim.reference w))
  = set_chiller_status "OK" (self w) /\
  self (snd (_read_chiller_status Sim.alarm_once w))
  = set_chiller_status "OK" (set_state FAULT (self w)).
Proof.
  intros w.
  pose proof (@status_read_outcome Sim.builtins Sim.reference w "0" "OK" 0 0
                eq_refl eq_refl eq_refl eq_refl) as (_ & H0 & _).
  pose proof (@status_read_outcome Sim.builtins Sim.alarm_once w "-1" "OK"
                (-1000) (-1) eq_refl eq_refl eq_refl eq_refl) as (_ & H1 & _).
  split; [exact H0|exact H1].
Defined.

(** STATUS answered inf raises [OverflowError] before STAT is written. *)
Lemma status_read_conversion_error_run :
  let w := @boot Special.builtins in
  _read_chiller_status (Sim.answering STATUS "inf") w
  = (inl OverflowError, mkWorld (self w) [Write STATUS]).
Proof.
  intros w.
  exact (@status_read_conversion_error Special.builtins
           (Sim.answering STATUS "inf") w "inf" Special.Infinity
           OverflowError eq_refl eq_refl eq_refl).
Defined.

(** A probe answered 0 gives ON, one answered -1 gives FAULT; the thread
    is started in both cases. *)
Lemma startup_probe_codes_run :
  state (self Sim.started) = ON /\
  comm_thread (self Sim.started) = true /\
  let w := snd (init_device (B := Sim.builtins)
                  (Sim.answering STATUS "-1") boot) in
  state (self w) = FAULT /\ comm_thread (self w) = true.
Proof.
  pose proof (@startup_probe_codes Sim.builtins Sim.reference "0" 0
                eq_refl eq_refl eq_refl) as (Ht & _ & Hon & _).
  pose proof (@startup_probe_codes Sim.builtins (Sim.answering STATUS "-1")
                "-1" (-1) eq_refl eq_refl eq_refl) as (Ht' & _ & _ & Hf).
  split; [exact (Hon eq_refl)|]. split; [exact Ht|].
  intros w. split; [exact (proj1 (Hf eq_refl))|exact Ht'].
Defined.

(** An absent port: no thread, state FAULT. *)
Lemma startup_always_returns_run :
  state (self (snd (init_device (B := Sim.builtins) Sim.absent boot)))
  = FAULT.
Proof.
  pose proof (@startup_always_returns Sim.builtins Sim.absent)
    as (_ & _ & _ & Hf).
  exact (Hf eq_refl).
Defined.

(** A pending setpoint and a pending power-on, flushed and failing. *)
Lemma flushes_ignore_the_answer_run :
  let w := call (write_is_on true)
             (call (write_temp_setp (25000 : @pyfloat Sim.builtins))
                Sim.started) in
  _temp_setp_changed (self (snd (_write_setp Sim.reference w))) = false /\
  state (self (snd (_write_is_on Sim.reference w))) = RUNNING /\
  _is_on_toggle
    (self (snd (_write_is_on (Sim.failing START SerialException) w))) = true.
Proof.
  intros w.
  pose proof (@flushes_ignore_the_answer Sim.builtins Sim.reference w)
    as (Hs & Hp).
  pose proof (@flushes_ignore_the_answer Sim.builtins
                (Sim.failing START SerialException) w) as (_ & Hp').
  destruct (proj1 (Hs eq_refl) "" eq_refl) as [_ H1].
  destruct (proj1 (Hp eq_refl) "" eq_refl) as [_ H2].
  destruct (proj2 (Hp' eq_refl) SerialException eq_refl) as (_ & H3 & _).
  rewrite H1, H2, H3. repeat split.
Defined.

(** Three iterations after a setpoint write: one OUT_SP_00, then reads. *)
Lemma loop_flushes_once_then_only_reads_run :
  let w := call (write_temp_setp (25000 : @pyfloat Sim.builtins)) Sim.started in
  exists evs,
    trace (snd (_communication_loop Sim.reference 3 w)) = (trace w ++ evs)%list
    /\ sent evs = (OUT_SP_00 (25000 : @pyfloat Sim.builtins) :: rounds 3)%list.
Proof.
  intros w.
  destruct (@loop_flushes_once_then_only_reads Sim.builtins Sim.reference 2 w)
    as (evs & Ht & _ & Hf).
  exists evs. split; [exact Ht|exact (proj1 (Hf eq_refl))].
Defined.

(** Polling an instrument started in INIT never shows ON. *)
Lemma polling_reaches_only_fault_or_running_run :
  let w := snd (init_device (B := Sim.builtins)
                  (Sim.answering STATUS "5") boot) in
  polled INIT
    (state (self (snd (_communication_loop (Sim.answering STATUS "5") 3 w)))).
Proof.
  intros w.
  exact (@polling_reaches_only_fault_or_running Sim.builtins
           (Sim.answering STATUS "5") 3 w eq_refl).
Defined.

(** The cycle with the alarm ends in RUNNING. *)
Lemma alarm_is_overwritten_by_running_mode_run :
  state (self (snd (cycle (B := Sim.builtins) Sim.alarm_once Sim.started)))
  = RUNNING /\
  In (ErrorStream "Chiller is in alarm state")
     (trace (snd (cycle (B := Sim.builtins) Sim.alarm_once Sim.started))).
Proof.
  pose proof (@alarm_is_overwritten_by_running_mode Sim.builtins
                Sim.alarm_once Sim.started
                (snd (before_status Sim.alarm_once Sim.started))
                "-1" "OK" "0" (-1000) 0
                eq_refl eq_refl eq_refl eq_refl eq_refl eq_refl eq_refl
                eq_refl) as (_ & Hs & _ & Hlog).
  split; [exact Hs|exact Hlog].
Defined.

(** The thread ended by STATUS answered abc: its last event is that
    write, and the answer to it is the cause. *)
Lemma loop_ends_only_for_a_cause_run :
  ended_by (B := Sim.builtins) (Sim.nth_status 2 "abc") Sim.started
    (snd (_communication_loop (Sim.nth_status 2 "abc") 3 Sim.started))
    ValueError.
Proof.
  exact (@loop_ends_only_for_a_cause Sim.builtins (Sim.nth_status 2 "abc")
           3 Sim.started ValueError eq_refl).
Defined.

(** 22.0, then off, then 25.0: STOP, OUT_SP_00_25.0, then the reads. *)
Lemma requests_of_both_kinds_are_flushed_together_run :
  let w1 := call (write_temp_setp (25000 : @pyfloat Sim.builtins))
              (call (write_is_on false)
                 (call (write_temp_setp (22000 : @pyfloat Sim.builtins))
                    Sim.started)) in
  exists evs,
    trace (snd (cycle Sim.reference w1)) = (trace Sim.started ++ evs)%list /\
    sent evs =
      (STOP :: OUT_SP_00 (25000 : @pyfloat Sim.builtins) :: read_cmds)%list.
Proof.
  intros w1.
  exact (@requests_of_both_kinds_are_flushed_together Sim.builtins
           Sim.reference Sim.started 22000 25000 false eq_refl).
Defined.

End MoreRuns.
